(** * Expense manager: the expense store and its query functions

    A shallow embedding of [src/project/src/context/ExpenseContext.tsx]
    (the [ExpenseProvider] component: the load and save effects,
    [addExpense], [getFilteredExpenses], [getMonthlyExpensesByCategory])
    together with the parts of the platform it calls: the ECMAScript
    [Date] object, [Math.min] and [Math.max], [JSON.parse] and
    [JSON.stringify], and the [date-fns] helpers [startOfMonth],
    [endOfMonth], [startOfDay], [subDays] and [addMonths].

    Conventions of the model.
    - A [Date] is its time value: [Some t] for [t] milliseconds since the
      epoch, [None] for an Invalid Date (time value NaN).  Date
      arithmetic is done on unbounded integers: the clip of ECMAScript
      time values to 8.64e15 ms around the epoch is not modelled.
    - Local time is UTC shifted by a constant offset [LocalTZA]
      (milliseconds); daylight-saving transitions are not modelled.
    - [amount] is an integer: the model covers amounts whose sums are
      exact in the number type of the platform.
    - The [while] loop of [getMonthlyExpensesByCategory] runs on fuel;
      the statements about it give the fuel that suffices.
    - The text in the storage slot is given by what [JSON.parse] makes of
      it; the text of a date inside it is a string, written by
      [toISOString] and read by [Date.parse]. *)

From Stdlib Require Import ZArith List Lia Bool String Ascii DecimalString.
Import ListNotations.
Local Open Scope Z_scope.

(* ================================================================= *)
(** ** ECMAScript time values (ECMA-262, "Time Values and Time Range") *)

Module ES.

Definition msPerDay : Z := 86400000.
Definition msPerHour : Z := 3600000.
Definition msPerMinute : Z := 60000.
Definition msPerSecond : Z := 1000.

Definition Day (t : Z) : Z := t / msPerDay.
Definition TimeWithinDay (t : Z) : Z := t mod msPerDay.

Definition DaysInYear (y : Z) : Z :=
  if negb (y mod 4 =? 0) then 365
  else if negb (y mod 100 =? 0) then 366
  else if negb (y mod 400 =? 0) then 365
  else 366.

Definition DayFromYear (y : Z) : Z :=
  365 * (y - 1970) + (y - 1969) / 4 - (y - 1901) / 100 + (y - 1601) / 400.

(** "The largest integer y such that DayFromYear(y) <= d": a first guess
    from the mean length of a year, corrected by one in either
    direction ([YearFromDay_spec] shows that this is that year). *)
Definition YearFromDay (d : Z) : Z :=
  let y := 1970 + (400 * d) / 146097 in
  if DayFromYear (y + 1) <=? d then y + 1
  else if DayFromYear y <=? d then y
  else y - 1.

Definition YearFromTime (t : Z) : Z := YearFromDay (Day t).

Definition LeapFlag (y : Z) : Z := if DaysInYear y =? 366 then 1 else 0.

Definition InLeapYear (t : Z) : Z := LeapFlag (YearFromTime t).

Definition DayWithinYear (t : Z) : Z := Day t - DayFromYear (YearFromTime t).

(** Day within the year on which month [m] (0 = January) starts. *)
Definition FirstDayOfMonth (m leap : Z) : Z :=
  if m =? 0 then 0
  else if m =? 1 then 31
  else if m =? 2 then 59 + leap
  else if m =? 3 then 90 + leap
  else if m =? 4 then 120 + leap
  else if m =? 5 then 151 + leap
  else if m =? 6 then 181 + leap
  else if m =? 7 then 212 + leap
  else if m =? 8 then 243 + leap
  else if m =? 9 then 273 + leap
  else if m =? 10 then 304 + leap
  else 334 + leap.

Definition MonthFromDay (d leap : Z) : Z :=
  if d <? 31 then 0
  else if d <? 59 + leap then 1
  else if d <? 90 + leap then 2
  else if d <? 120 + leap then 3
  else if d <? 151 + leap then 4
  else if d <? 181 + leap then 5
  else if d <? 212 + leap then 6
  else if d <? 243 + leap then 7
  else if d <? 273 + leap then 8
  else if d <? 304 + leap then 9
  else if d <? 334 + leap then 10
  else 11.

Definition MonthFromTime (t : Z) : Z :=
  MonthFromDay (DayWithinYear t) (InLeapYear t).

Definition DateFromTime (t : Z) : Z :=
  DayWithinYear t - FirstDayOfMonth (MonthFromTime t) (InLeapYear t) + 1.

Definition MakeTime (hour min sec ms : Z) : Z :=
  hour * msPerHour + min * msPerMinute + sec * msPerSecond + ms.

(** [MakeDay]: the day number of the first of month [mn] of year [ym],
    moved by [date - 1] days. *)
Definition MakeDay (year month date : Z) : Z :=
  let ym := year + month / 12 in
  let mn := month mod 12 in
  DayFromYear ym + FirstDayOfMonth mn (LeapFlag ym) + date - 1.

Definition MakeDate (day time : Z) : Z := day * msPerDay + time.

End ES.

(* ================================================================= *)
(** ** The [Date] object and the [date-fns] helpers *)

(** A JavaScript number as far as the store meets one: a finite integer,
    NaN or an infinity. *)
Inductive Number : Type :=
  | Finite (z : Z)
  | NaN
  | PosInfinity
  | NegInfinity.

(** [None] is an Invalid Date. *)
Definition Date : Type := option Z.

(** [new Date(value)] for a number [value]. *)
Definition Date_of_Number (v : Number) : Date :=
  match v with
  | Finite z => Some z
  | _ => None
  end.

Definition getTime (d : Date) : Number :=
  match d with
  | Some t => Finite t
  | None => NaN
  end.

(** [a >= b] and [a <= b] on two Date objects: both are converted to
    their time values; a comparison with NaN is false. *)
Definition date_ge (a b : Date) : bool :=
  match a, b with
  | Some x, Some y => y <=? x
  | _, _ => false
  end.

Definition date_le (a b : Date) : bool :=
  match a, b with
  | Some x, Some y => x <=? y
  | _, _ => false
  end.

Definition Number_min (a b : Number) : Number :=
  match a, b with
  | NaN, _ | _, NaN => NaN
  | NegInfinity, _ | _, NegInfinity => NegInfinity
  | PosInfinity, x | x, PosInfinity => x
  | Finite x, Finite y => Finite (Z.min x y)
  end.

Definition Number_max (a b : Number) : Number :=
  match a, b with
  | NaN, _ | _, NaN => NaN
  | PosInfinity, _ | _, PosInfinity => PosInfinity
  | NegInfinity, x | x, NegInfinity => x
  | Finite x, Finite y => Finite (Z.max x y)
  end.

(** [Math.min(...xs)] and [Math.max(...xs)]. *)
Definition Math_min (xs : list Number) : Number :=
  fold_left Number_min xs PosInfinity.

Definition Math_max (xs : list Number) : Number :=
  fold_left Number_max xs NegInfinity.

Section LocalTime.

(** The offset of local time from UTC, in milliseconds. *)
Variable LocalTZA : Z.

Definition LocalTime (t : Z) : Z := t + LocalTZA.
Definition UTC (t : Z) : Z := t - LocalTZA.

(** Methods of a valid Date with time value [t]; the setters return the
    new time value. *)
Definition getFullYear (t : Z) : Z := ES.YearFromTime (LocalTime t).
Definition getMonth (t : Z) : Z := ES.MonthFromTime (LocalTime t).
Definition getDate (t : Z) : Z := ES.DateFromTime (LocalTime t).

Definition setDate (t dt : Z) : Z :=
  let lt := LocalTime t in
  UTC (ES.MakeDate (ES.MakeDay (ES.YearFromTime lt) (ES.MonthFromTime lt) dt)
                   (ES.TimeWithinDay lt)).

Definition setMonth (t m dt : Z) : Z :=
  let lt := LocalTime t in
  UTC (ES.MakeDate (ES.MakeDay (ES.YearFromTime lt) m dt) (ES.TimeWithinDay lt)).

Definition setFullYear (t y m dt : Z) : Z :=
  let lt := LocalTime t in
  UTC (ES.MakeDate (ES.MakeDay y m dt) (ES.TimeWithinDay lt)).

Definition setHours (t hour min sec ms : Z) : Z :=
  let lt := LocalTime t in
  UTC (ES.MakeDate (ES.Day lt) (ES.MakeTime hour min sec ms)).

(** date-fns.  Each helper copies its argument and works on the copy; on
    an Invalid Date every getter is NaN and every setter leaves the date
    invalid, so the result is an Invalid Date. *)
Definition startOfMonth (date : Date) : Date :=
  match date with
  | None => None
  | Some t =>
      let t1 := setDate t 1 in
      Some (setHours t1 0 0 0 0)
  end.

Definition endOfMonth (date : Date) : Date :=
  match date with
  | None => None
  | Some t =>
      let month := getMonth t in
      let t1 := setFullYear t (getFullYear t) (month + 1) 0 in
      Some (setHours t1 23 59 59 999)
  end.

Definition startOfDay (date : Date) : Date :=
  match date with
  | None => None
  | Some t => Some (setHours t 0 0 0 0)
  end.

Definition addDays (date : Date) (amount : Z) : Date :=
  match date with
  | None => None
  | Some t =>
      if amount =? 0 then Some t
      else Some (setDate t (getDate t + amount))
  end.

Definition subDays (date : Date) (amount : Z) : Date :=
  addDays date (- amount).

Definition addMonths (date : Date) (amount : Z) : Date :=
  match date with
  | None => None
  | Some t =>
      if amount =? 0 then Some t
      else
        let dayOfMonth := getDate t in
        let endOfDesiredMonth := setMonth t (getMonth t + amount + 1) 0 in
        let daysInMonth := getDate endOfDesiredMonth in
        if daysInMonth <=? dayOfMonth then Some endOfDesiredMonth
        else Some (setFullYear t (getFullYear endOfDesiredMonth)
                                 (getMonth endOfDesiredMonth) dayOfMonth)
  end.

End LocalTime.

(* ================================================================= *)
(** ** Data model *)

Inductive Category : Type :=
  | Rental | Groceries | Entertainment | Travel | Others.

Inductive PaymentMode : Type :=
  | UPI | CreditCard | NetBanking | Cash.

Inductive DateFilter : Type :=
  | ThisMonth | Last30Days | Last90Days | AllTime.

Record Expense : Type := mkExpense {
  id : string;
  amount : Z;
  category : Category;
  notes : string;
  date : Date;
  paymentMode : PaymentMode
}.

(** [Omit<Expense, 'id'>], the argument of [addExpense]. *)
Record ExpenseInput : Type := mkExpenseInput {
  in_amount : Z;
  in_category : Category;
  in_notes : string;
  in_date : Date;
  in_paymentMode : PaymentMode
}.

(** One element of the result of [getMonthlyExpensesByCategory]: the
    object [{ month, Rental, Groceries, Entertainment, Travel, Others }]. *)
Record MonthlyExpenseData : Type := mkMonthlyExpenseData {
  month : string;
  totalRental : Z;
  totalGroceries : Z;
  totalEntertainment : Z;
  totalTravel : Z;
  totalOthers : Z
}.

Definition Category_eqb (a b : Category) : bool :=
  match a, b with
  | Rental, Rental | Groceries, Groceries | Entertainment, Entertainment
  | Travel, Travel | Others, Others => true
  | _, _ => false
  end.

Definition PaymentMode_eqb (a b : PaymentMode) : bool :=
  match a, b with
  | UPI, UPI | CreditCard, CreditCard | NetBanking, NetBanking
  | Cash, Cash => true
  | _, _ => false
  end.

(** [monthData[c]] and [monthData[c] = v]. *)
Definition getTotal (monthData : MonthlyExpenseData) (c : Category) : Z :=
  match c with
  | Rental => totalRental monthData
  | Groceries => totalGroceries monthData
  | Entertainment => totalEntertainment monthData
  | Travel => totalTravel monthData
  | Others => totalOthers monthData
  end.

Definition setTotal (monthData : MonthlyExpenseData) (c : Category) (v : Z)
  : MonthlyExpenseData :=
  let '(mkMonthlyExpenseData m r g e t o) := monthData in
  match c with
  | Rental => mkMonthlyExpenseData m v g e t o
  | Groceries => mkMonthlyExpenseData m r v e t o
  | Entertainment => mkMonthlyExpenseData m r g v t o
  | Travel => mkMonthlyExpenseData m r g e v o
  | Others => mkMonthlyExpenseData m r g e t v
  end.

(** [categories.includes(c)] and [paymentModes.includes(p)]. *)
Definition includesCategory (categories : list Category) (c : Category) : bool :=
  existsb (Category_eqb c) categories.

Definition includesPaymentMode (paymentModes : list PaymentMode) (p : PaymentMode)
  : bool :=
  existsb (PaymentMode_eqb p) paymentModes.

(* ================================================================= *)
(** ** The store: [addExpense] *)

(** [addExpense]: [uuid] is the value that this call's
    [crypto.randomUUID()] returns; the result is the next state
    [[...prevExpenses, newExpense]]. *)
Definition addExpense (uuid : string) (expense : ExpenseInput)
    (prevExpenses : list Expense) : list Expense :=
  let newExpense :=
    {| id := uuid;
       amount := in_amount expense;
       category := in_category expense;
       notes := in_notes expense;
       date := in_date expense;
       paymentMode := in_paymentMode expense |} in
  prevExpenses ++ [newExpense].


(* ================================================================= *)
(** ** The query functions *)

Definition shortMonthName (m : Z) : string :=
  if m =? 0 then "Jan" else if m =? 1 then "Feb" else if m =? 2 then "Mar"
  else if m =? 3 then "Apr" else if m =? 4 then "May" else if m =? 5 then "Jun"
  else if m =? 6 then "Jul" else if m =? 7 then "Aug" else if m =? 8 then "Sep"
  else if m =? 9 then "Oct" else if m =? 10 then "Nov" else "Dec".

Section Queries.

Variable LocalTZA : Z.

(** [d.toLocaleDateString('en-US', { month: 'short', year: 'numeric' })],
    for the years of the common era. *)
Definition toLocaleDateString (d : Date) : string :=
  match d with
  | None => "Invalid Date"
  | Some t =>
      shortMonthName (getMonth LocalTZA t) ++ " "
        ++ NilZero.string_of_int (Z.to_int (getFullYear LocalTZA t))
  end.

(** [getFilteredExpenses]; [now] is the time value of [new Date()]. *)
Definition getFilteredExpenses (now : Z) (expenses : list Expense)
    (dateFilter : DateFilter) (categories : list Category)
    (paymentModes : list PaymentMode) : list Expense :=
  let filteredExpenses := expenses in
  let today : Date := Some now in
  let filteredExpenses :=
    match dateFilter with
    | ThisMonth =>
        let firstDayOfMonth := startOfMonth LocalTZA today in
        let lastDayOfMonth := endOfMonth LocalTZA today in
        filter (fun expense =>
                  date_ge (date expense) firstDayOfMonth
                  && date_le (date expense) lastDayOfMonth)
               filteredExpenses
    | Last30Days =>
        let thirtyDaysAgo := subDays LocalTZA (startOfDay LocalTZA today) 30 in
        filter (fun expense => date_ge (date expense) thirtyDaysAgo)
               filteredExpenses
    | Last90Days =>
        let ninetyDaysAgo := subDays LocalTZA (startOfDay LocalTZA today) 90 in
        filter (fun expense => date_ge (date expense) ninetyDaysAgo)
               filteredExpenses
    | AllTime => filteredExpenses
    end in
  let filteredExpenses :=
    if (0 <? List.length categories)%nat
    then filter (fun expense => includesCategory categories (category expense))
                filteredExpenses
    else filteredExpenses in
  let filteredExpenses :=
    if (0 <? List.length paymentModes)%nat
    then filter (fun expense => includesPaymentMode paymentModes (paymentMode expense))
                filteredExpenses
    else filteredExpenses in
  filteredExpenses.

(** The body of [expenses.forEach] in [getMonthlyExpensesByCategory]. *)
Definition addToMonth (monthStart monthEnd : Date)
    (monthData : MonthlyExpenseData) (expense : Expense) : MonthlyExpenseData :=
  if date_ge (date expense) monthStart && date_le (date expense) monthEnd
  then setTotal monthData (category expense)
                (getTotal monthData (category expense) + amount expense)
  else monthData.

(** One pass of the body of the [while] loop: the entry of the month of
    [currentDate]. *)
Definition monthEntry (expenses : list Expense) (currentDate : Date)
  : MonthlyExpenseData :=
  let monthYear := toLocaleDateString currentDate in
  let monthData :=
    {| month := monthYear;
       totalRental := 0;
       totalGroceries := 0;
       totalEntertainment := 0;
       totalTravel := 0;
       totalOthers := 0 |} in
  let monthStart := startOfMonth LocalTZA currentDate in
  let monthEnd := endOfMonth LocalTZA currentDate in
  fold_left (addToMonth monthStart monthEnd) expenses monthData.

(** [while (currentDate <= endDate) { ...; months.push(monthData);
    currentDate = addMonths(currentDate, 1) }].  [fuel] bounds the number
    of passes; [None] when it does not suffice. *)
Fixpoint whileMonths (fuel : nat) (expenses : list Expense) (endDate : Date)
    (currentDate : Date) (months : list MonthlyExpenseData)
  : option (list MonthlyExpenseData) :=
  if date_le currentDate endDate then
    match fuel with
    | O => None
    | S fuel' =>
        let monthData := monthEntry expenses currentDate in
        whileMonths fuel' expenses endDate
                    (addMonths LocalTZA currentDate 1) (months ++ [monthData])
    end
  else Some months.

Definition getMonthlyExpensesByCategory (fuel : nat) (expenses : list Expense)
  : option (list MonthlyExpenseData) :=
  if (List.length expenses =? 0)%nat then Some []
  else
    let dates := map date expenses in
    let earliestDate := Date_of_Number (Math_min (map getTime dates)) in
    let latestDate := Date_of_Number (Math_max (map getTime dates)) in
    let startDate := startOfMonth LocalTZA earliestDate in
    let endDate := endOfMonth LocalTZA latestDate in
    whileMonths fuel expenses endDate startDate [].

End Queries.

(* ================================================================= *)
(** ** The query functions over a heap of arrays and objects

    The same two functions once more, statement by statement, over an
    explicit heap: every array and every [monthData] object is a cell
    with an address, [[...a]], [a.map] and [a.filter] allocate a new
    array, [months.push] and [monthData[c] = v] update a cell in place.
    Expense records and Date objects are values here: the functions only
    read the fields of a record, and date-fns copies a Date before it
    changes it. *)

Inductive Cell : Type :=
  | ExpenseArray (items : list Expense)
  | DateArray (items : list Date)
  | NumberArray (items : list Number)
  | MonthObject (obj : MonthlyExpenseData)
  | MonthArray (refs : list nat).

(** A heap; the address of a cell is its position. *)
Definition Heap : Type := list Cell.

(** A computation on the heap; [None] when it is stuck (a cell of the
    wrong kind, an address out of the heap, the loop out of fuel). *)
Definition M (A : Type) : Type := Heap -> option (A * Heap).

Definition ret {A : Type} (a : A) : M A := fun h => Some (a, h).

Definition bind {A B : Type} (c : M A) (k : A -> M B) : M B :=
  fun h =>
    match c h with
    | Some (a, h') => k a h'
    | None => None
    end.

Definition stuck {A : Type} : M A := fun _ => None.

Declare Scope heap_scope.
Delimit Scope heap_scope with heap.
Notation "x <- c ;; k" := (bind c (fun x => k))
  (at level 61, c at next level, right associativity) : heap_scope.
Notation "c ;; k" := (bind c (fun _ => k))
  (at level 61, right associativity) : heap_scope.
Local Open Scope heap_scope.

Definition alloc (c : Cell) : M nat :=
  fun h => Some (List.length h, h ++ [c]).

Definition load (a : nat) : M Cell :=
  fun h =>
    match nth_error h a with
    | Some c => Some (c, h)
    | None => None
    end.

Definition store (a : nat) (c : Cell) : M unit :=
  fun h =>
    if (a <? List.length h)%nat
    then Some (tt, firstn a h ++ c :: skipn (S a) h)
    else None.

Definition readExpenses (a : nat) : M (list Expense) :=
  c <- load a ;;
  match c with
  | ExpenseArray items => ret items
  | _ => stuck
  end.

Definition readDates (a : nat) : M (list Date) :=
  c <- load a ;;
  match c with
  | DateArray items => ret items
  | _ => stuck
  end.

Definition readNumbers (a : nat) : M (list Number) :=
  c <- load a ;;
  match c with
  | NumberArray items => ret items
  | _ => stuck
  end.

Definition readMonth (a : nat) : M MonthlyExpenseData :=
  c <- load a ;;
  match c with
  | MonthObject obj => ret obj
  | _ => stuck
  end.

Definition readRefs (a : nat) : M (list nat) :=
  c <- load a ;;
  match c with
  | MonthArray refs => ret refs
  | _ => stuck
  end.

(** [a.filter(p)]: a new array. *)
Definition arrayFilter (p : Expense -> bool) (a : nat) : M nat :=
  items <- readExpenses a ;;
  alloc (ExpenseArray (filter p items)).

(** [months.push(monthData)]. *)
Definition push (months monthData : nat) : M unit :=
  refs <- readRefs months ;;
  store months (MonthArray (refs ++ [monthData])).

(** [items.forEach(body)] over the elements read from an array. *)
Fixpoint forEach (body : Expense -> M unit) (items : list Expense) : M unit :=
  match items with
  | [] => ret tt
  | e :: rest => body e ;; forEach body rest
  end.

Section HeapQueries.

Variable LocalTZA : Z.

Definition getFilteredExpensesH (now : Z) (expenses : nat)
    (dateFilter : DateFilter) (categories : list Category)
    (paymentModes : list PaymentMode) : M nat :=
  items <- readExpenses expenses ;;
  filteredExpenses <- alloc (ExpenseArray items) ;;
  let today : Date := Some now in
  filteredExpenses <-
    match dateFilter with
    | ThisMonth =>
        let firstDayOfMonth := startOfMonth LocalTZA today in
        let lastDayOfMonth := endOfMonth LocalTZA today in
        arrayFilter (fun expense =>
                       date_ge (date expense) firstDayOfMonth
                       && date_le (date expense) lastDayOfMonth)
                    filteredExpenses
    | Last30Days =>
        let thirtyDaysAgo := subDays LocalTZA (startOfDay LocalTZA today) 30 in
        arrayFilter (fun expense => date_ge (date expense) thirtyDaysAgo)
                    filteredExpenses
    | Last90Days =>
        let ninetyDaysAgo := subDays LocalTZA (startOfDay LocalTZA today) 90 in
        arrayFilter (fun expense => date_ge (date expense) ninetyDaysAgo)
                    filteredExpenses
    | AllTime => ret filteredExpenses
    end ;;
  filteredExpenses <-
    (if (0 <? List.length categories)%nat
     then arrayFilter (fun expense =>
                         includesCategory categories (category expense))
                      filteredExpenses
     else ret filteredExpenses) ;;
  filteredExpenses <-
    (if (0 <? List.length paymentModes)%nat
     then arrayFilter (fun expense =>
                         includesPaymentMode paymentModes (paymentMode expense))
                      filteredExpenses
     else ret filteredExpenses) ;;
  ret filteredExpenses.

(** The callback of [expenses.forEach]: it updates [monthData] in
    place. *)
Definition addToMonthH (monthStart monthEnd : Date) (monthData : nat)
    (expense : Expense) : M unit :=
  if date_ge (date expense) monthStart && date_le (date expense) monthEnd
  then
    obj <- readMonth monthData ;;
    store monthData
          (MonthObject (setTotal obj (category expense)
                                 (getTotal obj (category expense) + amount expense)))
  else ret tt.

Fixpoint whileMonthsH (fuel : nat) (expenses : nat) (endDate : Date)
    (currentDate : Date) (months : nat) : M unit :=
  if date_le currentDate endDate then
    match fuel with
    | O => stuck
    | S fuel' =>
        let monthYear := toLocaleDateString LocalTZA currentDate in
        monthData <- alloc (MonthObject
                              {| month := monthYear;
                                 totalRental := 0;
                                 totalGroceries := 0;
                                 totalEntertainment := 0;
                                 totalTravel := 0;
                                 totalOthers := 0 |}) ;;
        let monthStart := startOfMonth LocalTZA currentDate in
        let monthEnd := endOfMonth LocalTZA currentDate in
        items <- readExpenses expenses ;;
        forEach (addToMonthH monthStart monthEnd monthData) items ;;
        push months monthData ;;
        whileMonthsH fuel' expenses endDate (addMonths LocalTZA currentDate 1) months
    end
  else ret tt.

Definition getMonthlyExpensesByCategoryH (fuel : nat) (expenses : nat) : M nat :=
  items <- readExpenses expenses ;;
  if (List.length items =? 0)%nat then alloc (MonthArray [])
  else
    dates <- alloc (DateArray (map date items)) ;;
    ds <- readDates dates ;;
    times <- alloc (NumberArray (map getTime ds)) ;;
    ts <- readNumbers times ;;
    let earliestDate := Date_of_Number (Math_min ts) in
    ds <- readDates dates ;;
    times <- alloc (NumberArray (map getTime ds)) ;;
    ts <- readNumbers times ;;
    let latestDate := Date_of_Number (Math_max ts) in
    let startDate := startOfMonth LocalTZA earliestDate in
    let endDate := endOfMonth LocalTZA latestDate in
    months <- alloc (MonthArray []) ;;
    whileMonthsH fuel expenses endDate startDate months ;;
    ret months.

End HeapQueries.

(** The objects that the references of a [months] array point to. *)
Definition derefMonths (h : Heap) (refs : list nat) : list (option MonthlyExpenseData) :=
  map (fun r =>
         match nth_error h r with
         | Some (MonthObject obj) => Some obj
         | _ => None
         end) refs.

(** The contents of the [months] array at address [a]. *)
Definition monthsAt (h : Heap) (a : nat) : option (list (option MonthlyExpenseData)) :=
  match nth_error h a with
  | Some (MonthArray refs) => Some (derefMonths h refs)
  | _ => None
  end.

(* ================================================================= *)
(** ** Dates as text: [toISOString] and [Date.parse] *)



Definition digitValue (c : ascii) : option Z :=
  if Ascii.eqb c "0" then Some 0 else if Ascii.eqb c "1" then Some 1
  else if Ascii.eqb c "2" then Some 2 else if Ascii.eqb c "3" then Some 3
  else if Ascii.eqb c "4" then Some 4 else if Ascii.eqb c "5" then Some 5
  else if Ascii.eqb c "6" then Some 6 else if Ascii.eqb c "7" then Some 7
  else if Ascii.eqb c "8" then Some 8 else if Ascii.eqb c "9" then Some 9
  else None.


(** Reads [k] decimal digits from the front of [s]. *)
Fixpoint readDigits (k : nat) (s : string) (acc : Z) : option (Z * string) :=
  match k with
  | O => Some (acc, s)
  | S k' =>
      match s with
      | String c rest =>
          match digitValue c with
          | Some d => readDigits k' rest (acc * 10 + d)
          | None => None
          end
      | EmptyString => None
      end
  end.

Definition expectChar (c : ascii) (s : string) : option string :=
  match s with
  | String c' rest => if Ascii.eqb c' c then Some rest else None
  | EmptyString => None
  end.





Definition optBind {A B : Type} (o : option A) (k : A -> option B) : option B :=
  match o with
  | Some a => k a
  | None => None
  end.

(** The offset that ends a date-time: [Z], [+HH:mm], [-HH:mm], or
    nothing, which means local time.  The result is what has to be
    subtracted from the time read to get UTC. *)
Definition parseOffset (LocalTZA : Z) (s : string) : option Z :=
  match s with
  | EmptyString => Some LocalTZA
  | String c rest =>
      if Ascii.eqb c "Z" then
        match rest with EmptyString => Some 0 | _ => None end
      else if Ascii.eqb c "+" || Ascii.eqb c "-" then
        optBind (readDigits 2 rest 0) (fun '(hh, r1) =>
        optBind (expectChar ":" r1) (fun r2 =>
        optBind (readDigits 2 r2 0) (fun '(mm, r3) =>
        match r3 with
        | EmptyString =>
            if (hh <=? 23) && (mm <=? 59) then
              let off := hh * ES.msPerHour + mm * ES.msPerMinute in
              Some (if Ascii.eqb c "+" then off else - off)
            else None
        | _ => None
        end)))
      else None
  end.

(** The part after [T]: [HH:mm], [HH:mm:ss] or [HH:mm:ss.sss], then the
    offset.  The result is the time within the day and the offset. *)
Definition parseTime (LocalTZA : Z) (s : string) : option (Z * Z) :=
  optBind (readDigits 2 s 0) (fun '(hh, r1) =>
  optBind (expectChar ":" r1) (fun r2 =>
  optBind (readDigits 2 r2 0) (fun '(mm, r3) =>
  let finish (ss ms : Z) (r : string) : option (Z * Z) :=
    if ((hh <=? 23) && (mm <=? 59) && (ss <=? 59))
       || ((hh =? 24) && (mm =? 0) && (ss =? 0) && (ms =? 0))
    then optBind (parseOffset LocalTZA r) (fun off =>
           Some (ES.MakeTime hh mm ss ms, off))
    else None in
  match expectChar ":" r3 with
  | None => finish 0 0 r3
  | Some r4 =>
      optBind (readDigits 2 r4 0) (fun '(ss, r5) =>
      match expectChar "." r5 with
      | None => finish ss 0 r5
      | Some r6 =>
          optBind (readDigits 3 r6 0) (fun '(ms, r7) => finish ss ms r7)
      end)
  end))).

(** The year: four digits, or a sign and six digits (not [-000000]). *)
Definition parseYear (s : string) : option (Z * string) :=
  match s with
  | String c rest =>
      if Ascii.eqb c "+" then readDigits 6 rest 0
      else if Ascii.eqb c "-" then
        optBind (readDigits 6 rest 0) (fun '(y, r) =>
          if y =? 0 then None else Some (- y, r))
      else readDigits 4 s 0
  | EmptyString => None
  end.

(** The Date Time String Format: [YYYY], [YYYY-MM] or [YYYY-MM-DD],
    alone (then in UTC) or followed by [T] and a time. *)
Definition parseDateTime (LocalTZA : Z) (s : string) : option Z :=
  optBind (parseYear s) (fun '(y, r1) =>
  let finish (mo d : Z) (r : string) : option Z :=
    if (1 <=? mo) && (mo <=? 12) && (1 <=? d) && (d <=? 31) then
      let day := ES.MakeDay y (mo - 1) d in
      match r with
      | EmptyString => Some (ES.MakeDate day 0)
      | String c rest =>
          if Ascii.eqb c "T" then
            optBind (parseTime LocalTZA rest) (fun '(time, off) =>
              Some (ES.MakeDate day time - off))
          else None
      end
    else None in
  match expectChar "-" r1 with
  | None => finish 1 1 r1
  | Some r2 =>
      optBind (readDigits 2 r2 0) (fun '(mo, r3) =>
      match expectChar "-" r3 with
      | None => finish mo 1 r3
      | Some r4 =>
          optBind (readDigits 2 r4 0) (fun '(d, r5) => finish mo d r5)
      end)
  end).

(** [Date.parse(s)].  A string outside the Date Time String Format is
    taken as unparsable (what the platform makes of such a string is left
    to the implementation). *)
Definition Date_parse (LocalTZA : Z) (s : string) : Number :=
  match parseDateTime LocalTZA s with
  | Some t => Finite t
  | None => NaN
  end.

(* ================================================================= *)
(** ** Persistence: the load and save effects of [ExpenseProvider] *)

(** A JSON value (numbers are integers, as everywhere in the model).
    The fields of an object are its own properties in enumeration
    order. *)
Unset Elimination Schemes.
Inductive JSON : Type :=
  | JNull
  | JBool (b : bool)
  | JNumber (n : Z)
  | JString (s : string)
  | JArray (items : list JSON)
  | JObject (fields : list (string * JSON)).
Set Elimination Schemes.

(** A value held by an object of the store: a value that came out of
    [JSON.parse], or a Date object. *)
Inductive Value : Type :=
  | VJson (j : JSON)
  | VDate (d : Date).

(** An object of the store: its own properties in enumeration order. *)
Definition StoredObject : Type := list (string * Value).

(** The text held by the storage slot, as far as the provider looks at
    it: the empty text (falsy), a text that [JSON.parse] rejects, or a
    text that [JSON.parse] accepts, given by the value it yields.
    [JSON.stringify] writes a text that yields the value it was given. *)
Inductive StoredText : Type :=
  | EmptyText
  | MalformedText
  | JSONText (v : JSON).

Inductive Error : Type :=
  | SyntaxError
  | TypeError.

(** [console.error('Failed to parse expenses from localStorage:', error)]. *)
Inductive LogEntry : Type :=
  | FailedToParse (error : Error).

(** The result of running a piece of code: it completes with a value or
    throws. *)
Inductive Completion (A : Type) : Type :=
  | Normal (a : A)
  | Throw (error : Error).
Arguments Normal {A} a.
Arguments Throw {A} error.

Definition andThen {A B : Type} (c : Completion A) (k : A -> Completion B)
  : Completion B :=
  match c with
  | Normal a => k a
  | Throw e => Throw e
  end.

(** [try { body } catch (error) { handler(error) }]. *)
Definition tryCatch {A : Type} (body : Completion A) (handler : Error -> Completion A)
  : Completion A :=
  match body with
  | Normal a => Normal a
  | Throw e => handler e
  end.

Definition JSON_parse (text : StoredText) : Completion JSON :=
  match text with
  | JSONText v => Normal v
  | EmptyText | MalformedText => Throw SyntaxError
  end.

Fixpoint lookupField {A : Type} (key : string) (fields : list (string * A))
  : option A :=
  match fields with
  | [] => None
  | (k, v) :: rest => if String.eqb k key then Some v else lookupField key rest
  end.

(** [object[key] = v] on an object: the property keeps its place when it
    exists and is added at the end when it does not. *)
Fixpoint setField {A : Type} (key : string) (v : A) (fields : list (string * A))
  : list (string * A) :=
  match fields with
  | [] => [(key, v)]
  | (k, v') :: rest =>
      if String.eqb k key then (k, v) :: rest
      else (k, v') :: setField key v rest
  end.

Definition indexKey (i : nat) : string := NilZero.string_of_uint (Nat.to_uint i).

Fixpoint indexed {A : Type} (i : nat) (items : list A) : list (string * A) :=
  match items with
  | [] => []
  | x :: rest => (indexKey i, x) :: indexed (S i) rest
  end.

Fixpoint characters (s : string) : list JSON :=
  match s with
  | EmptyString => []
  | String c rest => JString (String c EmptyString) :: characters rest
  end.

(** The own enumerable properties that [{...expense}] copies. *)
Definition spread (expense : JSON) : list (string * JSON) :=
  match expense with
  | JObject fields => fields
  | JArray items => indexed 0 items
  | JString s => indexed 0 (characters s)
  | JNull | JBool _ | JNumber _ => []
  end.

(** [expense.date], [None] for [undefined]; it throws on [null]. *)
Definition getDateProperty (expense : JSON) : Completion (option JSON) :=
  match expense with
  | JNull => Throw TypeError
  | JObject fields => Normal (lookupField "date" fields)
  | JArray _ | JString _ | JBool _ | JNumber _ => Normal None
  end.

(** [String(v)], as [new Date] applies it to an array or an object. *)
Fixpoint JSON_toString (v : JSON) : string :=
  match v with
  | JNull => "null"
  | JBool true => "true"
  | JBool false => "false"
  | JNumber n => NilZero.string_of_int (Z.to_int n)
  | JString s => s
  | JArray items =>
      (fix join (l : list JSON) : string :=
         match l with
         | [] => EmptyString
         | [x] => match x with JNull => EmptyString | _ => JSON_toString x end
         | x :: rest =>
             ((match x with JNull => EmptyString | _ => JSON_toString x end)
                ++ "," ++ join rest)%string
         end) items
  | JObject _ => "[object Object]"
  end.

Section Persistence.

Variable LocalTZA : Z.

(** [new Date(value)] for a value out of [JSON.parse] ([None] is
    [undefined]). *)
Definition newDate (value : option JSON) : Date :=
  match value with
  | None => None
  | Some JNull => Some 0
  | Some (JBool b) => Some (if b then 1 else 0)
  | Some (JNumber n) => Some n
  | Some (JString s) => Date_of_Number (Date_parse LocalTZA s)
  | Some v => Date_of_Number (Date_parse LocalTZA (JSON_toString v))
  end.

(** The callback of [.map] in the load effect:
    [(expense) => ({ ...expense, date: new Date(expense.date) })]. *)
Definition revive (expense : JSON) : Completion StoredObject :=
  let copied := map (fun '(k, v) => (k, VJson v)) (spread expense) in
  andThen (getDateProperty expense) (fun value =>
  Normal (setField "date" (VDate (newDate value)) copied)).

Fixpoint mapRevive (items : list JSON) : Completion (list StoredObject) :=
  match items with
  | [] => Normal []
  | x :: rest =>
      andThen (revive x) (fun o =>
      andThen (mapRevive rest) (fun os =>
      Normal (o :: os)))
  end.

(** [JSON.parse(savedExpenses).map(...)]: a value that is not an array
    has no [map] to call. *)
Definition parseExpenses (savedExpenses : StoredText)
  : Completion (list StoredObject) :=
  andThen (JSON_parse savedExpenses) (fun parsed =>
  match parsed with
  | JArray items => mapRevive items
  | _ => Throw TypeError
  end).

(** The state of the provider and what it wrote to the console. *)
Record Provider : Type := mkProvider {
  expenses : list StoredObject;
  console : list LogEntry
}.

(** [useState<Expense[]>([])]. *)
Definition initialProvider : Provider :=
  {| expenses := []; console := [] |}.

(** A text is truthy unless it is empty. *)
Definition truthy (text : StoredText) : bool :=
  match text with
  | EmptyText => false
  | _ => true
  end.

(** The load effect; [localStorage] is what the slot ['expenses'] holds,
    [None] when there is no such item. *)
Definition loadEffect (localStorage : option StoredText) (p : Provider)
  : Completion Provider :=
  let savedExpenses := localStorage in
  match savedExpenses with
  | Some text =>
      if truthy text then
        tryCatch
          (andThen (parseExpenses text) (fun parsedExpenses =>
           Normal {| expenses := parsedExpenses; console := console p |}))
          (fun error =>
           Normal {| expenses := expenses p;
                     console := console p ++ [FailedToParse error] |})
      else Normal p
  | None => Normal p
  end.




End Persistence.

(** How the categories and payment modes are spelled. *)
Definition Category_name (c : Category) : string :=
  match c with
  | Rental => "Rental"
  | Groceries => "Groceries"
  | Entertainment => "Entertainment"
  | Travel => "Travel"
  | Others => "Others"
  end.

Definition PaymentMode_name (p : PaymentMode) : string :=
  match p with
  | UPI => "UPI"
  | CreditCard => "Credit Card"
  | NetBanking => "Net Banking"
  | Cash => "Cash"
  end.


From Stdlib Require Import Permutation.

(* ================================================================= *)
(** ** The list view: [ExpenseList]

    [toLowerCase] and [trim] are the string methods of the platform,
    taken as they are; [includes] is the substring test. *)

Inductive SortField : Type :=
  | SortByDate | SortByAmount.

Inductive SortDirection : Type :=
  | Asc | Desc.

(** [s.includes(searchString)]. *)
Fixpoint String_includes (s searchString : string) : bool :=
  if String.prefix searchString s then true
  else
    match s with
    | EmptyString => false
    | String _ rest => String_includes rest searchString
    end.

(** [n.toString()] for an integer amount. *)
Definition Number_toString (n : Z) : string := NilZero.string_of_int (Z.to_int n).

(** [a - b] on numbers. *)
Definition Number_sub (a b : Number) : Number :=
  match a, b with
  | NaN, _ | _, NaN => NaN
  | Finite x, Finite y => Finite (x - y)
  | PosInfinity, PosInfinity | NegInfinity, NegInfinity => NaN
  | PosInfinity, _ | _, NegInfinity => PosInfinity
  | NegInfinity, _ | _, PosInfinity => NegInfinity
  end.

(** The comparison that [Array.prototype.sort] makes of the result of
    the comparator: NaN counts as zero; only the sign matters. *)
Definition SortCompare {A : Type} (comparefn : A -> A -> Number) (a b : A) : Z :=
  match comparefn a b with
  | Finite v => v
  | NaN => 0
  | PosInfinity => 1
  | NegInfinity => -1
  end.

(** [Array.prototype.sort], for a comparator that is consistent: the
    elements in ascending order, elements that compare equal in their
    original order (where the comparator is not consistent the platform
    leaves the order open). *)
Fixpoint sortInsert {A : Type} (comparefn : A -> A -> Number) (x : A) (l : list A)
  : list A :=
  match l with
  | [] => [x]
  | y :: rest =>
      if SortCompare comparefn x y <=? 0 then x :: y :: rest
      else y :: sortInsert comparefn x rest
  end.

Definition Array_sort {A : Type} (comparefn : A -> A -> Number) (l : list A)
  : list A :=
  fold_right (sortInsert comparefn) [] l.

(** The comparator of the list view. *)
Definition compareExpenses (sortField : SortField) (sortDirection : SortDirection)
    (a b : Expense) : Number :=
  match sortField with
  | SortByDate =>
      match sortDirection with
      | Asc => Number_sub (getTime (date a)) (getTime (date b))
      | Desc => Number_sub (getTime (date b)) (getTime (date a))
      end
  | SortByAmount =>
      match sortDirection with
      | Asc => Number_sub (Finite (amount a)) (Finite (amount b))
      | Desc => Number_sub (Finite (amount b)) (Finite (amount a))
      end
  end.

(** [toggleCategory] and [togglePaymentMode]: the next selection. *)
Definition toggleCategory (category : Category) (prev : list Category)
  : list Category :=
  if includesCategory prev category
  then filter (fun c => negb (Category_eqb c category)) prev
  else prev ++ [category].

Definition togglePaymentMode (mode : PaymentMode) (prev : list PaymentMode)
  : list PaymentMode :=
  if includesPaymentMode prev mode
  then filter (fun m => negb (PaymentMode_eqb m mode)) prev
  else prev ++ [mode].


Section ListView.

Variable LocalTZA : Z.
Variable toLowerCase : string -> string.
Variable trim : string -> string.

(** The test of the search filter. *)
Definition searchMatches (lowerSearchTerm : string) (expense : Expense) : bool :=
  String_includes (toLowerCase (notes expense)) lowerSearchTerm
  || String_includes (toLowerCase (Category_name (category expense))) lowerSearchTerm
  || String_includes (Number_toString (amount expense)) lowerSearchTerm
  || String_includes (toLowerCase (PaymentMode_name (paymentMode expense)))
                     lowerSearchTerm.

(** [filteredExpenses] of the list view: filter, search, sort. *)
Definition filteredExpenses (now : Z) (collection : list Expense)
    (dateFilter : DateFilter) (selectedCategories : list Category)
    (selectedPaymentModes : list PaymentMode) (searchTerm : string)
    (sortField : SortField) (sortDirection : SortDirection) : list Expense :=
  let expenses :=
    getFilteredExpenses LocalTZA now collection dateFilter selectedCategories
                        selectedPaymentModes in
  let expenses :=
    if negb (String.eqb (trim searchTerm) EmptyString) then
      let lowerSearchTerm := toLowerCase searchTerm in
      filter (searchMatches lowerSearchTerm) expenses
    else expenses in
  Array_sort (compareExpenses sortField sortDirection) expenses.

(** The same over the heap: [sort] works in place, on the array that
    [getFilteredExpenses] or [filter] returned. *)
Definition filteredExpensesH (now : Z) (collection : nat)
    (dateFilter : DateFilter) (selectedCategories : list Category)
    (selectedPaymentModes : list PaymentMode) (searchTerm : string)
    (sortField : SortField) (sortDirection : SortDirection) : M nat :=
  expenses <- getFilteredExpensesH LocalTZA now collection dateFilter selectedCategories
                                   selectedPaymentModes ;;
  expenses <-
    (if negb (String.eqb (trim searchTerm) EmptyString) then
       let lowerSearchTerm := toLowerCase searchTerm in
       arrayFilter (searchMatches lowerSearchTerm) expenses
     else ret expenses) ;;
  items <- readExpenses expenses ;;
  store expenses
        (ExpenseArray (Array_sort (compareExpenses sortField sortDirection) items)) ;;
  ret expenses.

End ListView.

(* ================================================================= *)
(** ** The analytics view: [ExpenseAnalytics] *)

(** [x || 0] on an integer. *)
Definition orZero (x : Z) : Z := if x =? 0 then 0 else x.

(** [totals[category] += v] on the object [totals]. *)
Fixpoint addToKey (category : Category) (v : Z) (totals : list (Category * Z))
  : list (Category * Z) :=
  match totals with
  | [] => []
  | (c, amount) :: rest =>
      if Category_eqb c category then (c, amount + v) :: rest
      else (c, amount) :: addToKey category v rest
  end.

(** [categoryTotals]: the entries [{ category, amount }] of the object
    [totals] after the pass over the months. *)
Definition categoryTotals (monthlyExpenses : list MonthlyExpenseData)
  : list (Category * Z) :=
  let totals :=
    [ (Rental, 0); (Groceries, 0); (Entertainment, 0); (Travel, 0); (Others, 0) ] in
  fold_left
    (fun totals month =>
       fold_left (fun totals category =>
                    addToKey category (orZero (getTotal month category)) totals)
                 (map fst totals) totals)
    monthlyExpenses totals.

(** [totalExpenses]. *)
Definition totalExpenses (categoryTotals : list (Category * Z)) : Z :=
  fold_left (fun sum entry => sum + snd entry) categoryTotals 0.

(* ================================================================= *)
(** ** Calendar months, as the statements below speak of them *)

(** Calendar months are numbered consecutively: month [m] (0 = January)
    of year [y] has index [12 * y + m]. *)
Definition monthIndex (lt : Z) : Z :=
  12 * ES.YearFromTime lt + ES.MonthFromTime lt.

(** The day number of the first day of the month of index [n]. *)
Definition MonthStartDay (n : Z) : Z := ES.MakeDay 0 n 1.

(** The calendar month, in local time, of the instant [t]. *)
Definition monthOf (LocalTZA t : Z) : Z := monthIndex (LocalTime LocalTZA t).

(** The calendar day, in local time, of the instant [t]. *)
Definition dayOf (LocalTZA t : Z) : Z := ES.Day (LocalTime LocalTZA t).

(** Local midnight at the start of the day numbered [d]. *)
Definition startOfDayNumber (LocalTZA d : Z) : Z := UTC LocalTZA (ES.MakeDate d 0).

(** The months from [lo] to [hi], both included, in order. *)
Definition monthRange (lo hi : Z) : list Z :=
  map (fun i => lo + Z.of_nat i) (seq 0 (Z.to_nat (hi - lo + 1))).

Definition sumZ (l : list Z) : Z := fold_right Z.add 0 l.

(** The record [e] is dated in the calendar month [n]. *)
Definition inMonth (LocalTZA n : Z) (e : Expense) : bool :=
  match date e with
  | Some t => monthOf LocalTZA t =? n
  | None => false
  end.

(** The sum of the amounts of the records of category [c] dated in
    month [n]. *)
Definition totalFor (LocalTZA : Z) (expenses : list Expense) (n : Z)
    (c : Category) : Z :=
  sumZ (map amount
            (filter (fun e => inMonth LocalTZA n e && Category_eqb (category e) c)
                    expenses)).

(** The display label of the month of index [n]. *)
Definition monthLabel (n : Z) : string :=
  shortMonthName (n mod 12) ++ " " ++ NilZero.string_of_int (Z.to_int (n / 12)).

(** The entry of month [n]: its label and one total for each of the
    five categories. *)
Definition monthTotals (LocalTZA : Z) (expenses : list Expense) (n : Z)
  : MonthlyExpenseData :=
  {| month := monthLabel n;
     totalRental := totalFor LocalTZA expenses n Rental;
     totalGroceries := totalFor LocalTZA expenses n Groceries;
     totalEntertainment := totalFor LocalTZA expenses n Entertainment;
     totalTravel := totalFor LocalTZA expenses n Travel;
     totalOthers := totalFor LocalTZA expenses n Others |}.


(** Every record of the collection carries a valid date. *)
Definition allDatesValid (expenses : list Expense) : Prop :=
  forall e, In e expenses -> date e <> None.

(** [t] is the time value of the earliest (latest) record date. *)
Definition isEarliest (expenses : list Expense) (t : Z) : Prop :=
  In (Some t) (map date expenses) /\
  forall u, In (Some u) (map date expenses) -> t <= u.

Definition isLatest (expenses : list Expense) (t : Z) : Prop :=
  In (Some t) (map date expenses) /\
  forall u, In (Some u) (map date expenses) -> u <= t.

(** The record is dated on a calendar day from [d1] to [d2], both
    included. *)
Definition datedWithin (LocalTZA d1 d2 : Z) (e : Expense) : bool :=
  match date e with
  | Some t => (d1 <=? dayOf LocalTZA t) && (dayOf LocalTZA t <=? d2)
  | None => false
  end.

(** The record is dated at the instant [t0] or later. *)
Definition datedFrom (t0 : Z) (e : Expense) : bool :=
  match date e with
  | Some t => t0 <=? t
  | None => false
  end.

(** The first and the last calendar day of the month of [now]. *)
Definition firstDayOfCurrentMonth (LocalTZA now : Z) : Z :=
  MonthStartDay (monthOf LocalTZA now).

Definition lastDayOfCurrentMonth (LocalTZA now : Z) : Z :=
  MonthStartDay (monthOf LocalTZA now + 1) - 1.


(** The state of [filteredExpenses] between two statements of
    [getFilteredExpensesH]: the heap is the initial heap [h0] followed by
    new cells, and [cur] is one of the new cells, an array holding
    [items]. *)
Definition filtering (h0 h : Heap) (cur : nat) (items : list Expense) : Prop :=
  (exists fresh, h = h0 ++ fresh)
  /\ (List.length h0 <= cur)%nat
  /\ nth_error h cur = Some (ExpenseArray items).

(* ================================================================= *)
(** ** The three tests of [getFilteredExpenses], as the statements speak
    of them *)

(** The record passes the date filter at the instant [now]. *)
Definition keptByDate (LocalTZA now : Z) (dateFilter : DateFilter) (e : Expense)
  : bool :=
  match dateFilter with
  | ThisMonth =>
      datedWithin LocalTZA (firstDayOfCurrentMonth LocalTZA now)
                  (lastDayOfCurrentMonth LocalTZA now) e
  | Last30Days => datedFrom (startOfDayNumber LocalTZA (dayOf LocalTZA now - 30)) e
  | Last90Days => datedFrom (startOfDayNumber LocalTZA (dayOf LocalTZA now - 90)) e
  | AllTime => true
  end.

(** The record passes the category filter: an empty set lets every
    record pass. *)
Definition keptByCategory (categories : list Category) (e : Expense) : bool :=
  match categories with
  | [] => true
  | _ => includesCategory categories (category e)
  end.

Definition keptByPaymentMode (paymentModes : list PaymentMode) (e : Expense) : bool :=
  match paymentModes with
  | [] => true
  | _ => includesPaymentMode paymentModes (paymentMode e)
  end.

(** [l] is in ascending order of the comparison [cmp] (every element
    compares at most equal to every later one). *)
Fixpoint ascending {A : Type} (cmp : A -> A -> Z) (l : list A) : Prop :=
  match l with
  | [] => True
  | x :: rest => (forall y, In y rest -> cmp x y <= 0) /\ ascending cmp rest
  end.


(** The key by which the list view sorts: the time value of the date or
    the amount, negated for the descending direction. *)
Definition sortKey (sortField : SortField) (sortDirection : SortDirection)
    (e : Expense) : Z :=
  let k :=
    match sortField with
    | SortByDate => match date e with Some t => t | None => 0 end
    | SortByAmount => amount e
    end in
  match sortDirection with
  | Asc => k
  | Desc => - k
  end.

(** The record passes the search of the list view: every record does
    when the term is blank. *)
Definition keptBySearch (toLowerCase trim : string -> string) (searchTerm : string)
    (e : Expense) : bool :=
  if String.eqb (trim searchTerm) EmptyString then true
  else searchMatches toLowerCase (toLowerCase searchTerm) e.

(** The records that the list view shows, before it sorts them. *)
Definition shownRecords (LocalTZA : Z) (toLowerCase trim : string -> string)
    (now : Z) (collection : list Expense) (dateFilter : DateFilter)
    (selectedCategories : list Category) (selectedPaymentModes : list PaymentMode)
    (searchTerm : string) : list Expense :=
  filter (fun e => keptByDate LocalTZA now dateFilter e
                   && keptByCategory selectedCategories e
                   && keptByPaymentMode selectedPaymentModes e
                   && keptBySearch toLowerCase trim searchTerm e) collection.


(* ================================================================= *)
(** * Properties *)

(** ** The calendar *)

Ltac split_ifs :=
  repeat match goal with
  | |- context [?a =? ?b] => destruct (Z.eqb_spec a b)
  | |- context [?a <? ?b] => destruct (Z.ltb_spec a b)
  | |- context [?a <=? ?b] => destruct (Z.leb_spec a b)
  end; cbn [negb].

Ltac zdiv := Z.div_mod_to_equations; lia.

Lemma DayFromYear_succ y :
  ES.DayFromYear (y + 1) = ES.DayFromYear y + ES.DaysInYear y.
Proof. unfold ES.DayFromYear, ES.DaysInYear. split_ifs; zdiv. Qed.

Lemma DaysInYear_cases y : ES.DaysInYear y = 365 \/ ES.DaysInYear y = 366.
Proof. unfold ES.DaysInYear. split_ifs; auto. Qed.

Lemma DaysInYear_LeapFlag y : ES.DaysInYear y = 365 + ES.LeapFlag y.
Proof.
  unfold ES.LeapFlag. destruct (DaysInYear_cases y) as [H|H]; rewrite H; reflexivity.
Qed.

Lemma LeapFlag_cases y : ES.LeapFlag y = 0 \/ ES.LeapFlag y = 1.
Proof. unfold ES.LeapFlag. split_ifs; auto. Qed.

Lemma DayFromYear_lt y1 y2 : y1 < y2 -> ES.DayFromYear y1 < ES.DayFromYear y2.
Proof. unfold ES.DayFromYear. zdiv. Qed.

(** [YearFromDay d] is the year whose days contain [d]. *)
Lemma YearFromDay_spec d :
  ES.DayFromYear (ES.YearFromDay d) <= d < ES.DayFromYear (ES.YearFromDay d + 1).
Proof.
  unfold ES.YearFromDay.
  set (y := 1970 + (400 * d) / 146097).
  assert (Hy : 146097 * (y - 1970) <= 400 * d < 146097 * (y - 1970) + 146097)
    by (unfold y; zdiv).
  clearbody y.
  destruct (Z.leb_spec (ES.DayFromYear (y + 1)) d) as [H1|H1].
  - split; [lia|]. unfold ES.DayFromYear in *. zdiv.
  - destruct (Z.leb_spec (ES.DayFromYear y) d) as [H2|H2].
    + lia.
    + replace (y - 1 + 1) with y by lia. split; [|lia].
      unfold ES.DayFromYear in *. zdiv.
Qed.

Lemma YearFromDay_unique d y :
  ES.DayFromYear y <= d < ES.DayFromYear (y + 1) -> ES.YearFromDay d = y.
Proof.
  intros H. pose proof (YearFromDay_spec d) as S.
  destruct (Z.lt_trichotomy (ES.YearFromDay d) y) as [L|[E|G]]; [|exact E|].
  - assert (ES.DayFromYear (ES.YearFromDay d + 1) <= ES.DayFromYear y).
    { destruct (Z.eq_dec (ES.YearFromDay d + 1) y) as [->|]; [lia|].
      apply Z.lt_le_incl, DayFromYear_lt. lia. }
    lia.
  - assert (ES.DayFromYear (y + 1) <= ES.DayFromYear (ES.YearFromDay d)).
    { destruct (Z.eq_dec (y + 1) (ES.YearFromDay d)) as [->|]; [lia|].
      apply Z.lt_le_incl, DayFromYear_lt. lia. }
    lia.
Qed.

Lemma DayWithinYear_range t :
  0 <= ES.DayWithinYear t < 365 + ES.InLeapYear t.
Proof.
  unfold ES.DayWithinYear, ES.InLeapYear, ES.YearFromTime.
  pose proof (YearFromDay_spec (ES.Day t)) as S.
  rewrite DayFromYear_succ, DaysInYear_LeapFlag in S. lia.
Qed.

Lemma MonthFromDay_range d leap : 0 <= ES.MonthFromDay d leap <= 11.
Proof. unfold ES.MonthFromDay. split_ifs; lia. Qed.

Lemma MonthFromTime_range t : 0 <= ES.MonthFromTime t <= 11.
Proof. apply MonthFromDay_range. Qed.

(** The month table and its inverse agree. *)
Lemma MonthFromDay_bracket d leap :
  0 <= d < 365 + leap -> (leap = 0 \/ leap = 1) ->
  ES.FirstDayOfMonth (ES.MonthFromDay d leap) leap <= d /\
  (ES.MonthFromDay d leap < 11 ->
   d < ES.FirstDayOfMonth (ES.MonthFromDay d leap + 1) leap).
Proof.
  intros Hd Hl. unfold ES.MonthFromDay.
  destruct Hl; subst leap;
  repeat match goal with
  | |- context [?a <? ?b] => destruct (Z.ltb_spec a b)
  end; unfold ES.FirstDayOfMonth; cbn; lia.
Qed.

Lemma monthIndex_div lt : monthIndex lt / 12 = ES.YearFromTime lt.
Proof.
  unfold monthIndex. pose proof (MonthFromTime_range lt). zdiv.
Qed.

Lemma monthIndex_mod lt : monthIndex lt mod 12 = ES.MonthFromTime lt.
Proof.
  unfold monthIndex. pose proof (MonthFromTime_range lt). zdiv.
Qed.

Lemma MonthStartDay_eq n :
  MonthStartDay n =
  ES.DayFromYear (n / 12) + ES.FirstDayOfMonth (n mod 12) (ES.LeapFlag (n / 12)).
Proof. unfold MonthStartDay, ES.MakeDay. cbn zeta. rewrite !Z.add_0_l. lia. Qed.

Lemma MakeDay_MonthStartDay y m dt :
  ES.MakeDay y m dt = MonthStartDay (12 * y + m) + dt - 1.
Proof.
  rewrite MonthStartDay_eq. unfold ES.MakeDay. cbn zeta.
  replace ((12 * y + m) / 12) with (y + m / 12) by zdiv.
  replace ((12 * y + m) mod 12) with (m mod 12) by zdiv.
  lia.
Qed.

(** A month has 28 to 31 days. *)
Lemma MonthStartDay_step n :
  28 <= MonthStartDay (n + 1) - MonthStartDay n <= 31.
Proof.
  rewrite !MonthStartDay_eq.
  assert (Hm : 0 <= n mod 12 < 12) by (apply Z.mod_pos_bound; lia).
  destruct (Z.eq_dec (n mod 12) 11) as [E|NE].
  - replace ((n + 1) / 12) with (n / 12 + 1) by zdiv.
    replace ((n + 1) mod 12) with 0 by zdiv.
    rewrite DayFromYear_succ, DaysInYear_LeapFlag, E.
    destruct (LeapFlag_cases (n / 12)) as [L|L]; rewrite L;
      unfold ES.FirstDayOfMonth; cbn; lia.
  - replace ((n + 1) / 12) with (n / 12) by zdiv.
    replace ((n + 1) mod 12) with (n mod 12 + 1) by zdiv.
    destruct (LeapFlag_cases (n / 12)) as [L|L]; rewrite L;
      unfold ES.FirstDayOfMonth; split_ifs; lia.
Qed.

Lemma MonthStartDay_lt n1 n2 : n1 < n2 -> MonthStartDay n1 < MonthStartDay n2.
Proof.
  intros H. replace n2 with (n1 + 1 + (n2 - n1 - 1)) by lia.
  assert (Hk : 0 <= n2 - n1 - 1) by lia.
  generalize dependent (n2 - n1 - 1). intros k Hk.
  pattern k. apply natlike_ind; [| |exact Hk].
  - rewrite Z.add_0_r. pose proof (MonthStartDay_step n1). lia.
  - intros x Hx IH. replace (n1 + 1 + Z.succ x) with (n1 + 1 + x + 1) by lia.
    pose proof (MonthStartDay_step (n1 + 1 + x)). lia.
Qed.

Lemma MonthStartDay_le n1 n2 : n1 <= n2 -> MonthStartDay n1 <= MonthStartDay n2.
Proof.
  intros H. destruct (Z.eq_dec n1 n2) as [->|]; [lia|].
  apply Z.lt_le_incl, MonthStartDay_lt. lia.
Qed.

(** The month of an instant is the month whose days contain its day. *)
Lemma monthIndex_bracket lt :
  MonthStartDay (monthIndex lt) <= ES.Day lt < MonthStartDay (monthIndex lt + 1).
Proof.
  pose proof (MonthFromTime_range lt) as Hr.
  pose proof (DayWithinYear_range lt) as Hd.
  assert (Hl : ES.InLeapYear lt = 0 \/ ES.InLeapYear lt = 1)
    by apply LeapFlag_cases.
  destruct (MonthFromDay_bracket _ _ Hd Hl) as [B1 B2].
  fold (ES.MonthFromTime lt) in B1, B2.
  split.
  - rewrite MonthStartDay_eq, monthIndex_div, monthIndex_mod.
    fold (ES.InLeapYear lt). unfold ES.DayWithinYear in B1. lia.
  - destruct (Z.eq_dec (ES.MonthFromTime lt) 11) as [E|NE].
    + rewrite MonthStartDay_eq.
      replace ((monthIndex lt + 1) / 12) with (ES.YearFromTime lt + 1)
        by (unfold monthIndex; zdiv).
      replace ((monthIndex lt + 1) mod 12) with 0 by (unfold monthIndex; zdiv).
      pose proof (YearFromDay_spec (ES.Day lt)) as S.
      fold (ES.YearFromTime lt) in S. unfold ES.FirstDayOfMonth. cbn. lia.
    + rewrite MonthStartDay_eq.
      replace ((monthIndex lt + 1) / 12) with (ES.YearFromTime lt)
        by (unfold monthIndex; zdiv).
      replace ((monthIndex lt + 1) mod 12) with (ES.MonthFromTime lt + 1)
        by (unfold monthIndex; zdiv).
      fold (ES.InLeapYear lt). unfold ES.DayWithinYear in B2. lia.
Qed.

Lemma monthIndex_unique lt n :
  MonthStartDay n <= ES.Day lt < MonthStartDay (n + 1) -> monthIndex lt = n.
Proof.
  intros H. pose proof (monthIndex_bracket lt) as B.
  destruct (Z.lt_trichotomy (monthIndex lt) n) as [L|[E|G]]; [|exact E|].
  - assert (MonthStartDay (monthIndex lt + 1) <= MonthStartDay n)
      by (apply MonthStartDay_le; lia). lia.
  - assert (MonthStartDay (n + 1) <= MonthStartDay (monthIndex lt))
      by (apply MonthStartDay_le; lia). lia.
Qed.

Lemma DateFromTime_eq lt :
  ES.DateFromTime lt = ES.Day lt - MonthStartDay (monthIndex lt) + 1.
Proof.
  unfold ES.DateFromTime. rewrite MonthStartDay_eq, monthIndex_div, monthIndex_mod.
  unfold ES.DayWithinYear, ES.InLeapYear. lia.
Qed.

Lemma YearFromTime_monthIndex lt : ES.YearFromTime lt = monthIndex lt / 12.
Proof. symmetry. apply monthIndex_div. Qed.

Lemma Day_MakeDate d tw :
  0 <= tw < ES.msPerDay -> ES.Day (ES.MakeDate d tw) = d.
Proof. unfold ES.Day, ES.MakeDate, ES.msPerDay. intros H. zdiv. Qed.

Lemma TimeWithinDay_MakeDate d tw :
  0 <= tw < ES.msPerDay -> ES.TimeWithinDay (ES.MakeDate d tw) = tw.
Proof. unfold ES.TimeWithinDay, ES.MakeDate, ES.msPerDay. intros H. zdiv. Qed.

Lemma TimeWithinDay_range t : 0 <= ES.TimeWithinDay t < ES.msPerDay.
Proof. unfold ES.TimeWithinDay, ES.msPerDay. zdiv. Qed.


(** The month of an instant, read off its day number. *)
Lemma monthIndex_of_day lt n :
  monthIndex lt = n <-> MonthStartDay n <= ES.Day lt < MonthStartDay (n + 1).
Proof.
  split.
  - intros <-. apply monthIndex_bracket.
  - apply monthIndex_unique.
Qed.

(** ** The Date methods and the date-fns helpers *)

Section DateFacts.

Variable tz : Z.

Lemma LocalTime_UTC x : LocalTime tz (UTC tz x) = x.
Proof. unfold LocalTime, UTC. lia. Qed.

Lemma dayOf_startOfDayNumber d : dayOf tz (startOfDayNumber tz d) = d.
Proof.
  unfold dayOf, startOfDayNumber. rewrite LocalTime_UTC.
  apply Day_MakeDate. unfold ES.msPerDay. lia.
Qed.

Lemma TimeWithinDay_startOfDayNumber d :
  ES.TimeWithinDay (LocalTime tz (startOfDayNumber tz d)) = 0.
Proof.
  unfold startOfDayNumber. rewrite LocalTime_UTC.
  apply TimeWithinDay_MakeDate. unfold ES.msPerDay. lia.
Qed.

Lemma monthOf_day t n :
  monthOf tz t = n <-> MonthStartDay n <= dayOf tz t < MonthStartDay (n + 1).
Proof. apply monthIndex_of_day. Qed.

Lemma monthOf_startOfDayNumber n :
  monthOf tz (startOfDayNumber tz (MonthStartDay n)) = n.
Proof.
  apply monthOf_day. rewrite dayOf_startOfDayNumber.
  pose proof (MonthStartDay_step n). lia.
Qed.

(** Instants and day numbers: [t] lies on day [d] or later exactly when
    it is not before the local midnight that starts [d]. *)
Lemma startOfDayNumber_le t d : startOfDayNumber tz d <= t <-> d <= dayOf tz t.
Proof.
  unfold startOfDayNumber, dayOf, UTC, LocalTime, ES.MakeDate, ES.Day, ES.msPerDay.
  split; intros H; zdiv.
Qed.

Lemma lt_startOfDayNumber t d : t < startOfDayNumber tz d <-> dayOf tz t < d.
Proof. pose proof (startOfDayNumber_le t d). lia. Qed.

Lemma getDate_eq t :
  getDate tz t = dayOf tz t - MonthStartDay (monthOf tz t) + 1.
Proof. apply DateFromTime_eq. Qed.

Lemma setDate_eq t dt :
  setDate tz t dt =
  UTC tz (ES.MakeDate (MonthStartDay (monthOf tz t) + dt - 1)
                      (ES.TimeWithinDay (LocalTime tz t))).
Proof.
  unfold setDate. cbn zeta. rewrite MakeDay_MonthStartDay. reflexivity.
Qed.

Lemma setMonth_eq t m dt :
  setMonth tz t m dt =
  UTC tz (ES.MakeDate (MonthStartDay (12 * getFullYear tz t + m) + dt - 1)
                      (ES.TimeWithinDay (LocalTime tz t))).
Proof.
  unfold setMonth. cbn zeta. rewrite MakeDay_MonthStartDay. reflexivity.
Qed.

Lemma setFullYear_eq t y m dt :
  setFullYear tz t y m dt =
  UTC tz (ES.MakeDate (MonthStartDay (12 * y + m) + dt - 1)
                      (ES.TimeWithinDay (LocalTime tz t))).
Proof.
  unfold setFullYear. cbn zeta. rewrite MakeDay_MonthStartDay. reflexivity.
Qed.

Lemma year_month_index t : 12 * getFullYear tz t + getMonth tz t = monthOf tz t.
Proof. reflexivity. Qed.

Lemma dayOf_UTC_MakeDate d tw :
  0 <= tw < ES.msPerDay -> dayOf tz (UTC tz (ES.MakeDate d tw)) = d.
Proof. intros H. unfold dayOf. rewrite LocalTime_UTC. apply Day_MakeDate, H. Qed.

Lemma setHours_eq t h m s ms :
  setHours tz t h m s ms =
  UTC tz (ES.MakeDate (dayOf tz t) (ES.MakeTime h m s ms)).
Proof. reflexivity. Qed.

(** [startOfMonth]: local midnight of the first day of the month. *)
Lemma startOfMonth_eq t :
  startOfMonth tz (Some t) = Some (startOfDayNumber tz (MonthStartDay (monthOf tz t))).
Proof.
  unfold startOfMonth. cbn zeta. rewrite setHours_eq, setDate_eq.
  rewrite dayOf_UTC_MakeDate by apply TimeWithinDay_range.
  unfold startOfDayNumber, ES.MakeTime. do 3 f_equal. lia.
Qed.

(** [endOfMonth]: the last millisecond before the next month starts. *)
Lemma endOfMonth_eq t :
  endOfMonth tz (Some t) =
  Some (startOfDayNumber tz (MonthStartDay (monthOf tz t + 1)) - 1).
Proof.
  unfold endOfMonth. cbn zeta. rewrite setHours_eq, setFullYear_eq.
  rewrite dayOf_UTC_MakeDate by apply TimeWithinDay_range.
  replace (12 * getFullYear tz t + (getMonth tz t + 1)) with (monthOf tz t + 1)
    by (rewrite <- year_month_index; lia).
  unfold startOfDayNumber, UTC, ES.MakeDate, ES.MakeTime,
    ES.msPerDay, ES.msPerHour, ES.msPerMinute, ES.msPerSecond.
  f_equal. lia.
Qed.

Lemma startOfDay_eq t :
  startOfDay tz (Some t) = Some (startOfDayNumber tz (dayOf tz t)).
Proof.
  unfold startOfDay. rewrite setHours_eq. unfold startOfDayNumber, ES.MakeTime.
  do 3 f_equal.
Qed.

(** [subDays (startOfDay today) n]: local midnight [n] days earlier. *)
Lemma subDays_startOfDay t n :
  subDays tz (startOfDay tz (Some t)) n = Some (startOfDayNumber tz (dayOf tz t - n)).
Proof.
  rewrite startOfDay_eq. unfold subDays, addDays.
  destruct (Z.eqb_spec (- n) 0) as [E|NE].
  - do 2 f_equal. lia.
  - rewrite setDate_eq, getDate_eq, TimeWithinDay_startOfDayNumber.
    rewrite dayOf_startOfDayNumber.
    unfold startOfDayNumber. do 3 f_equal. lia.
Qed.

(** An instant lies between [startOfMonth d] and [endOfMonth d] exactly
    when it falls in the calendar month of [d]. *)
Lemma in_month_iff s t :
  date_ge (Some t) (startOfMonth tz (Some s))
    && date_le (Some t) (endOfMonth tz (Some s)) = true
  <-> monthOf tz t = monthOf tz s.
Proof.
  rewrite startOfMonth_eq, endOfMonth_eq. cbn [date_ge date_le].
  rewrite andb_true_iff, !Z.leb_le, monthOf_day.
  pose proof (startOfDayNumber_le t (MonthStartDay (monthOf tz s))).
  pose proof (lt_startOfDayNumber t (MonthStartDay (monthOf tz s + 1))).
  lia.
Qed.

(** One month after the start of a month is the start of the next. *)
Lemma addMonths_startOfMonth n :
  addMonths tz (Some (startOfDayNumber tz (MonthStartDay n))) 1 =
  Some (startOfDayNumber tz (MonthStartDay (n + 1))).
Proof.
  unfold addMonths. cbn [Z.eqb]. cbn zeta.
  set (t := startOfDayNumber tz (MonthStartDay n)).
  assert (Hm : monthOf tz t = n) by apply monthOf_startOfDayNumber.
  assert (Hd : dayOf tz t = MonthStartDay n) by apply dayOf_startOfDayNumber.
  assert (Hw : ES.TimeWithinDay (LocalTime tz t) = 0)
    by apply TimeWithinDay_startOfDayNumber.
  assert (Hg : getDate tz t = 1) by (rewrite getDate_eq, Hm, Hd; lia).
  rewrite Hg. rewrite setMonth_eq, Hw.
  replace (12 * getFullYear tz t + (getMonth tz t + 1 + 1)) with (n + 2)
    by (rewrite <- Hm, <- year_month_index; lia).
  set (e := UTC tz (ES.MakeDate (MonthStartDay (n + 2) + 0 - 1) 0)).
  assert (He : e = startOfDayNumber tz (MonthStartDay (n + 2) - 1)).
  { unfold e, startOfDayNumber. do 2 f_equal. lia. }
  pose proof (MonthStartDay_step (n + 1)) as S1.
  replace (n + 1 + 1) with (n + 2) in S1 by lia.
  assert (Hme : monthOf tz e = n + 1).
  { apply monthOf_day. rewrite He, dayOf_startOfDayNumber.
    replace (n + 1 + 1) with (n + 2) by lia. lia. }
  assert (Hge : getDate tz e = MonthStartDay (n + 2) - MonthStartDay (n + 1)).
  { rewrite getDate_eq, Hme, He, dayOf_startOfDayNumber. lia. }
  rewrite Hge.
  destruct (Z.leb_spec (MonthStartDay (n + 2) - MonthStartDay (n + 1)) 1); [lia|].
  rewrite setFullYear_eq, Hw, year_month_index, Hme.
  unfold startOfDayNumber. do 3 f_equal. lia.
Qed.

End DateFacts.

(** ** The monthly aggregation *)

Section AggregationFacts.

Variable tz : Z.

Lemma monthRange_cons lo hi :
  lo <= hi -> monthRange lo hi = lo :: monthRange (lo + 1) hi.
Proof.
  intros H. unfold monthRange.
  replace (Z.to_nat (hi - lo + 1)) with (S (Z.to_nat (hi - (lo + 1) + 1))) by lia.
  cbn [seq map]. f_equal; [lia|].
  rewrite <- seq_shift, map_map. apply map_ext. intros i. lia.
Qed.

Lemma monthRange_nil lo hi : hi < lo -> monthRange lo hi = [].
Proof.
  intros H. unfold monthRange.
  replace (Z.to_nat (hi - lo + 1)) with O by lia. reflexivity.
Qed.

Lemma monthRange_length lo hi :
  List.length (monthRange lo hi) = Z.to_nat (hi - lo + 1).
Proof. unfold monthRange. rewrite length_map, length_seq. reflexivity. Qed.


Lemma startOfDayNumber_mono d1 d2 :
  d1 <= d2 <-> startOfDayNumber tz d1 <= startOfDayNumber tz d2.
Proof.
  unfold startOfDayNumber, UTC, ES.MakeDate, ES.msPerDay. lia.
Qed.

Lemma getTotal_setTotal md c v c' :
  getTotal (setTotal md c v) c' = if Category_eqb c' c then v else getTotal md c'.
Proof. destruct md, c, c'; reflexivity. Qed.

Lemma month_setTotal md c v : month (setTotal md c v) = month md.
Proof. destruct md, c; reflexivity. Qed.

Lemma MonthlyExpenseData_ext a b :
  month a = month b -> (forall c, getTotal a c = getTotal b c) -> a = b.
Proof.
  intros Hm H. destruct a, b. cbn in Hm.
  pose proof (H Rental). pose proof (H Groceries). pose proof (H Entertainment).
  pose proof (H Travel). pose proof (H Others). cbn in *. congruence.
Qed.

Lemma in_month_eqb s t :
  date_ge (Some t) (startOfMonth tz (Some s))
    && date_le (Some t) (endOfMonth tz (Some s))
  = (monthOf tz t =? monthOf tz s).
Proof.
  apply eq_true_iff_eq. rewrite in_month_iff, Z.eqb_eq. reflexivity.
Qed.

Lemma addToMonth_inMonth s md e :
  addToMonth (startOfMonth tz (Some s)) (endOfMonth tz (Some s)) md e
  = if inMonth tz (monthOf tz s) e
    then setTotal md (category e) (getTotal md (category e) + amount e)
    else md.
Proof.
  unfold addToMonth, inMonth. destruct (date e) as [t|].
  - rewrite in_month_eqb. reflexivity.
  - reflexivity.
Qed.

Lemma Category_eqb_eq a b : Category_eqb a b = true <-> a = b.
Proof. destruct a, b; cbn; split; congruence. Qed.

Lemma PaymentMode_eqb_eq a b : PaymentMode_eqb a b = true <-> a = b.
Proof. destruct a, b; cbn; split; congruence. Qed.

Lemma totalFor_cons e l n c :
  totalFor tz (e :: l) n c
  = (if inMonth tz n e && Category_eqb (category e) c then amount e else 0)
    + totalFor tz l n c.
Proof.
  unfold totalFor, sumZ. cbn [filter].
  destruct (inMonth tz n e && Category_eqb (category e) c);
    cbn [map fold_right]; lia.
Qed.

(** The pass over the records adds each record of the month to the total
    of its category and leaves everything else alone. *)
Lemma fold_addToMonth s expenses md :
  let r := fold_left (addToMonth (startOfMonth tz (Some s)) (endOfMonth tz (Some s)))
                     expenses md in
  month r = month md /\
  forall c, getTotal r c = getTotal md c + totalFor tz expenses (monthOf tz s) c.
Proof.
  revert md. induction expenses as [|e l IH]; intros md; cbn zeta.
  - split; [reflexivity|]. intros c. unfold totalFor. cbn. lia.
  - cbn [fold_left]. destruct (IH (addToMonth (startOfMonth tz (Some s))
                                              (endOfMonth tz (Some s)) md e))
      as [IHm IHt]. cbn zeta in IHm, IHt.
    split.
    + rewrite IHm, addToMonth_inMonth.
      destruct (inMonth tz (monthOf tz s) e); [apply month_setTotal|reflexivity].
    + intros c. rewrite IHt, addToMonth_inMonth, totalFor_cons.
      destruct (inMonth tz (monthOf tz s) e); cbn [andb]; [|lia].
      rewrite getTotal_setTotal.
      destruct (Category_eqb c (category e)) eqn:E.
      * apply Category_eqb_eq in E. subst c.
        replace (Category_eqb (category e) (category e)) with true
          by (symmetry; apply Category_eqb_eq; reflexivity).
        lia.
      * replace (Category_eqb (category e) c) with false; [lia|].
        symmetry. apply not_true_is_false. intros T.
        apply Category_eqb_eq in T. subst c.
        rewrite (proj2 (Category_eqb_eq _ _) eq_refl) in E. discriminate.
Qed.

Lemma getMonth_monthOf t : getMonth tz t = monthOf tz t mod 12.
Proof. symmetry. apply monthIndex_mod. Qed.

Lemma getFullYear_monthOf t : getFullYear tz t = monthOf tz t / 12.
Proof. symmetry. apply monthIndex_div. Qed.

Lemma toLocaleDateString_month n :
  toLocaleDateString tz (Some (startOfDayNumber tz (MonthStartDay n))) = monthLabel n.
Proof.
  unfold toLocaleDateString, monthLabel.
  rewrite getMonth_monthOf, getFullYear_monthOf, monthOf_startOfDayNumber.
  reflexivity.
Qed.

(** One pass of the loop at the start of month [n] yields the entry of
    month [n]. *)
Lemma monthEntry_startOfMonth expenses n :
  monthEntry tz expenses (Some (startOfDayNumber tz (MonthStartDay n)))
  = monthTotals tz expenses n.
Proof.
  unfold monthEntry. cbn zeta.
  match goal with |- fold_left _ _ ?md = _ =>
    destruct (fold_addToMonth (startOfDayNumber tz (MonthStartDay n)) expenses md)
      as [Hm Ht] end.
  cbn zeta in Hm, Ht. rewrite monthOf_startOfDayNumber in Ht.
  apply MonthlyExpenseData_ext.
  - rewrite Hm. cbn [month]. apply toLocaleDateString_month.
  - intros c. rewrite Ht. destruct c; cbn; lia.
Qed.

(** The loop, started at the first day of month [lo] and bounded by the
    last instant of month [hi], pushes the entries of the months [lo] to
    [hi] in order and stops, provided the fuel covers that many passes. *)
Lemma whileMonths_range expenses (k : nat) :
  forall fuel lo months,
    (k <= fuel)%nat ->
    whileMonths tz fuel expenses
      (Some (startOfDayNumber tz (MonthStartDay (lo + Z.of_nat k)) - 1))
      (Some (startOfDayNumber tz (MonthStartDay lo))) months
    = Some (months ++ map (monthTotals tz expenses)
                          (monthRange lo (lo + Z.of_nat k - 1))).
Proof.
  induction k as [|k IH]; intros fuel lo months Hf.
  - rewrite monthRange_nil by lia. rewrite app_nil_r.
    replace (lo + Z.of_nat 0) with lo by lia.
    destruct fuel; cbn [whileMonths date_le];
      destruct (Z.leb_spec (startOfDayNumber tz (MonthStartDay lo))
                           (startOfDayNumber tz (MonthStartDay lo) - 1));
      try lia; reflexivity.
  - destruct fuel as [|fuel]; [lia|].
    cbn [whileMonths date_le].
    assert (Hlt : MonthStartDay lo < MonthStartDay (lo + Z.of_nat (S k)))
      by (apply MonthStartDay_lt; lia).
    assert (Hs : startOfDayNumber tz (MonthStartDay lo)
                 <= startOfDayNumber tz (MonthStartDay (lo + Z.of_nat (S k))) - 1).
    { unfold startOfDayNumber, UTC, ES.MakeDate, ES.msPerDay. lia. }
    apply Z.leb_le in Hs. rewrite Hs.
    rewrite addMonths_startOfMonth, monthEntry_startOfMonth.
    replace (lo + Z.of_nat (S k)) with (lo + 1 + Z.of_nat k) by lia.
    rewrite IH by lia.
    rewrite (monthRange_cons lo) by lia.
    rewrite <- app_assoc. reflexivity.
Qed.

End AggregationFacts.

Section MonthlyFacts.

Variable tz : Z.

Lemma dayOf_mono t1 t2 : t1 <= t2 -> dayOf tz t1 <= dayOf tz t2.
Proof.
  unfold dayOf, LocalTime, ES.Day, ES.msPerDay. intros H. zdiv.
Qed.

Lemma monthOf_mono t1 t2 : t1 <= t2 -> monthOf tz t1 <= monthOf tz t2.
Proof.
  intros H. apply dayOf_mono in H.
  pose proof (proj1 (monthOf_day tz t1 _) eq_refl) as B1.
  pose proof (proj1 (monthOf_day tz t2 _) eq_refl) as B2.
  destruct (Z_le_gt_dec (monthOf tz t1) (monthOf tz t2)) as [L|G]; [exact L|].
  assert (MonthStartDay (monthOf tz t2 + 1) <= MonthStartDay (monthOf tz t1))
    by (apply MonthStartDay_le; lia).
  lia.
Qed.

(** [Math.min] and [Math.max] over the time values of valid dates. *)
Lemma fold_min_valid (ds : list Date) :
  (forall d, In d ds -> d <> None) ->
  forall a, exists m,
    fold_left Number_min (map getTime ds) (Finite a) = Finite m /\
    m <= a /\ (forall u, In (Some u) ds -> m <= u) /\
    (m = a \/ In (Some m) ds).
Proof.
  induction ds as [|d ds IH]; intros V a.
  - exists a. cbn. repeat split; auto; try lia; intros u [].
  - destruct d as [t|]; [|exfalso; apply (V None); [left; reflexivity|reflexivity]].
    cbn [map fold_left getTime Number_min].
    destruct (IH (fun d H => V d (or_intror H)) (Z.min a t)) as [m [E [L [A O]]]].
    exists m. split; [exact E|]. split; [lia|]. split.
    + intros u [Hu|Hu]; [inversion Hu; subst; lia|auto].
    + destruct O as [O|O]; [|right; right; exact O].
      destruct (Z.min_spec a t) as [[_ M]|[_ M]]; rewrite M in O;
        [left; exact O|right; left; congruence].
Qed.

Lemma fold_max_valid (ds : list Date) :
  (forall d, In d ds -> d <> None) ->
  forall a, exists m,
    fold_left Number_max (map getTime ds) (Finite a) = Finite m /\
    a <= m /\ (forall u, In (Some u) ds -> u <= m) /\
    (m = a \/ In (Some m) ds).
Proof.
  induction ds as [|d ds IH]; intros V a.
  - exists a. cbn. repeat split; auto; try lia; intros u [].
  - destruct d as [t|]; [|exfalso; apply (V None); [left; reflexivity|reflexivity]].
    cbn [map fold_left getTime Number_max].
    destruct (IH (fun d H => V d (or_intror H)) (Z.max a t)) as [m [E [L [A O]]]].
    exists m. split; [exact E|]. split; [lia|]. split.
    + intros u [Hu|Hu]; [inversion Hu; subst; lia|auto].
    + destruct O as [O|O]; [|right; right; exact O].
      destruct (Z.max_spec a t) as [[_ M]|[_ M]]; rewrite M in O;
        [right; left; congruence|left; exact O].
Qed.

Lemma allDatesValid_dates expenses :
  allDatesValid expenses -> forall d, In d (map date expenses) -> d <> None.
Proof.
  intros V d H. apply in_map_iff in H. destruct H as [e [<- He]]. apply V, He.
Qed.

Lemma Math_min_earliest expenses t :
  allDatesValid expenses -> isEarliest expenses t ->
  Math_min (map getTime (map date expenses)) = Finite t.
Proof.
  intros V [Hin Hle]. pose proof (allDatesValid_dates _ V) as Vd.
  unfold Math_min. destruct (map date expenses) as [|d ds]; [destruct Hin|].
  destruct d as [t0|]; [|exfalso; apply (Vd None); [left; reflexivity|reflexivity]].
  cbn [map fold_left getTime Number_min].
  destruct (fold_min_valid ds (fun d H => Vd d (or_intror H)) t0) as [m [E [L [A O]]]].
  rewrite E. f_equal.
  assert (t <= m).
  { destruct O as [->|O]; [apply Hle; left; reflexivity|apply Hle; right; exact O]. }
  assert (m <= t).
  { destruct Hin as [Hin|Hin]; [inversion Hin; subst; exact L|apply A, Hin]. }
  lia.
Qed.

Lemma Math_max_latest expenses t :
  allDatesValid expenses -> isLatest expenses t ->
  Math_max (map getTime (map date expenses)) = Finite t.
Proof.
  intros V [Hin Hle]. pose proof (allDatesValid_dates _ V) as Vd.
  unfold Math_max. destruct (map date expenses) as [|d ds]; [destruct Hin|].
  destruct d as [t0|]; [|exfalso; apply (Vd None); [left; reflexivity|reflexivity]].
  cbn [map fold_left getTime Number_max].
  destruct (fold_max_valid ds (fun d H => Vd d (or_intror H)) t0) as [m [E [L [A O]]]].
  rewrite E. f_equal.
  assert (m <= t).
  { destruct O as [->|O]; [apply Hle; left; reflexivity|apply Hle; right; exact O]. }
  assert (t <= m).
  { destruct Hin as [Hin|Hin]; [inversion Hin; subst; exact L|apply A, Hin]. }
  lia.
Qed.

(** A non-empty collection of valid dates has an earliest and a latest
    date. *)
Lemma earliest_exists expenses :
  expenses <> [] -> allDatesValid expenses -> exists t, isEarliest expenses t.
Proof.
  intros NE V. pose proof (allDatesValid_dates _ V) as Vd.
  unfold isEarliest. destruct expenses as [|e l]; [congruence|].
  cbn [map] in *. destruct (date e) as [t0|] eqn:E0;
    [|exfalso; apply (Vd None); [left; reflexivity|reflexivity]].
  destruct (fold_min_valid (map date l) (fun d H => Vd d (or_intror H)) t0)
    as [m [_ [L [A O]]]].
  exists m. split.
  - destruct O as [->|O]; [left; reflexivity|right; exact O].
  - intros u [Hu|Hu]; [inversion Hu; subst; exact L|apply A, Hu].
Qed.

Lemma latest_exists expenses :
  expenses <> [] -> allDatesValid expenses -> exists t, isLatest expenses t.
Proof.
  intros NE V. pose proof (allDatesValid_dates _ V) as Vd.
  unfold isLatest. destruct expenses as [|e l]; [congruence|].
  cbn [map] in *. destruct (date e) as [t0|] eqn:E0;
    [|exfalso; apply (Vd None); [left; reflexivity|reflexivity]].
  destruct (fold_max_valid (map date l) (fun d H => Vd d (or_intror H)) t0)
    as [m [_ [L [A O]]]].
  exists m. split.
  - destruct O as [->|O]; [left; reflexivity|right; exact O].
  - intros u [Hu|Hu]; [inversion Hu; subst; exact L|apply A, Hu].
Qed.

(** The aggregation over a collection of valid dates. *)
Lemma getMonthlyExpensesByCategory_valid expenses tmin tmax fuel :
  allDatesValid expenses ->
  isEarliest expenses tmin -> isLatest expenses tmax ->
  (Z.to_nat (monthOf tz tmax - monthOf tz tmin + 1) <= fuel)%nat ->
  getMonthlyExpensesByCategory tz fuel expenses
  = Some (map (monthTotals tz expenses)
              (monthRange (monthOf tz tmin) (monthOf tz tmax))).
Proof.
  intros V Hmin Hmax Hf.
  assert (Hle : tmin <= tmax) by (apply Hmin, Hmax).
  apply monthOf_mono in Hle.
  unfold getMonthlyExpensesByCategory.
  destruct expenses as [|e l] eqn:Ee; [destruct Hmin as [[] _]|].
  cbn [List.length Nat.eqb]. rewrite <- Ee in *. cbn zeta.
  rewrite (Math_min_earliest _ _ V Hmin), (Math_max_latest _ _ V Hmax).
  cbn [Date_of_Number]. rewrite startOfMonth_eq, endOfMonth_eq.
  set (lo := monthOf tz tmin) in *. set (hi := monthOf tz tmax) in *.
  pose proof (whileMonths_range tz expenses (Z.to_nat (hi - lo + 1)) fuel lo [] Hf)
    as W.
  replace (lo + Z.of_nat (Z.to_nat (hi - lo + 1))) with (hi + 1) in W by lia.
  replace (hi + 1 - 1) with hi in W by lia.
  exact W.
Qed.










End MonthlyFacts.

(** ** Invalid dates in the aggregation *)

Lemma fold_min_NaN xs : fold_left Number_min xs NaN = NaN.
Proof. induction xs as [|x xs IH]; [reflexivity|]. cbn. destruct x; exact IH. Qed.

Lemma fold_max_NaN xs : fold_left Number_max xs NaN = NaN.
Proof. induction xs as [|x xs IH]; [reflexivity|]. cbn. destruct x; exact IH. Qed.

Lemma Number_min_NaN_r a : Number_min a NaN = NaN.
Proof. destruct a; reflexivity. Qed.

Lemma Number_max_NaN_r a : Number_max a NaN = NaN.
Proof. destruct a; reflexivity. Qed.

Lemma fold_min_In_NaN xs a : In NaN xs -> fold_left Number_min xs a = NaN.
Proof.
  revert a. induction xs as [|x xs IH]; intros a H; [destruct H|].
  cbn [fold_left]. destruct H as [->|H].
  - rewrite Number_min_NaN_r. apply fold_min_NaN.
  - apply IH, H.
Qed.

Lemma fold_max_In_NaN xs a : In NaN xs -> fold_left Number_max xs a = NaN.
Proof.
  revert a. induction xs as [|x xs IH]; intros a H; [destruct H|].
  cbn [fold_left]. destruct H as [->|H].
  - rewrite Number_max_NaN_r. apply fold_max_NaN.
  - apply IH, H.
Qed.

(** One record with an Invalid Date empties the whole aggregation. *)
Lemma getMonthlyExpensesByCategory_invalid tz fuel expenses e :
  In e expenses -> date e = None ->
  getMonthlyExpensesByCategory tz fuel expenses = Some [].
Proof.
  intros He Hd. unfold getMonthlyExpensesByCategory.
  destruct (List.length expenses =? 0)%nat; [reflexivity|]. cbn zeta.
  assert (HN : In NaN (map getTime (map date expenses))).
  { apply in_map_iff. exists None. split; [reflexivity|].
    apply in_map_iff. exists e. split; assumption. }
  unfold Math_min, Math_max.
  rewrite (fold_min_In_NaN _ _ HN), (fold_max_In_NaN _ _ HN).
  cbn [Date_of_Number startOfMonth endOfMonth].
  destruct fuel; reflexivity.
Qed.

(** ** The date filters *)

Section FilterFacts.

Variable tz : Z.

Lemma thisMonth_test now e :
  date_ge (date e) (startOfMonth tz (Some now))
    && date_le (date e) (endOfMonth tz (Some now))
  = datedWithin tz (firstDayOfCurrentMonth tz now) (lastDayOfCurrentMonth tz now) e.
Proof.
  unfold datedWithin. destruct (date e) as [t|]; [|reflexivity].
  rewrite in_month_eqb. apply eq_true_iff_eq.
  rewrite Z.eqb_eq, andb_true_iff, !Z.leb_le, monthOf_day.
  unfold firstDayOfCurrentMonth, lastDayOfCurrentMonth. lia.
Qed.

Lemma lastDays_test now n e :
  date_ge (date e) (subDays tz (startOfDay tz (Some now)) n)
  = datedFrom (startOfDayNumber tz (dayOf tz now - n)) e.
Proof.
  rewrite subDays_startOfDay. unfold datedFrom.
  destruct (date e) as [t|]; reflexivity.
Qed.


(** The first day of the current month is a day 1, and the day after the
    last day of the current month is the day 1 of the next month. *)
Lemma firstDay_is_day_one now t :
  dayOf tz t = firstDayOfCurrentMonth tz now ->
  getDate tz t = 1 /\ monthOf tz t = monthOf tz now.
Proof.
  unfold firstDayOfCurrentMonth. intros H.
  assert (E : monthOf tz t = monthOf tz now).
  { apply monthOf_day. pose proof (MonthStartDay_step (monthOf tz now)). lia. }
  split; [|exact E]. rewrite getDate_eq, E, H. lia.
Qed.

Lemma day_after_lastDay now t :
  dayOf tz t = lastDayOfCurrentMonth tz now + 1 ->
  getDate tz t = 1 /\ monthOf tz t = monthOf tz now + 1.
Proof.
  unfold lastDayOfCurrentMonth. intros H.
  assert (E : monthOf tz t = monthOf tz now + 1).
  { apply monthOf_day. pose proof (MonthStartDay_step (monthOf tz now + 1)). lia. }
  split; [|exact E]. rewrite getDate_eq, E, H. lia.
Qed.

End FilterFacts.

(** ** Termination of the aggregation *)

Lemma dates_valid_or_not (expenses : list Expense) :
  allDatesValid expenses \/ exists e, In e expenses /\ date e = None.
Proof.
  induction expenses as [|e l IH].
  - left. intros e [].
  - destruct (date e) as [t|] eqn:E.
    + destruct IH as [V|[e' [He' Hd]]].
      * left. intros x [<-|Hx]; [congruence|apply V, Hx].
      * right. exists e'. split; [right; exact He'|exact Hd].
    + right. exists e. split; [left; reflexivity|exact E].
Qed.

(** On every collection the loop of [getMonthlyExpensesByCategory] comes
    to its end: from some amount of fuel on, the function returns. *)
Lemma getMonthlyExpensesByCategory_terminates tz expenses :
  exists enough : nat, forall fuel, (enough <= fuel)%nat ->
  exists months, getMonthlyExpensesByCategory tz fuel expenses = Some months.
Proof.
  destruct expenses as [|e0 l] eqn:Ee.
  - exists O. intros fuel _. exists []. reflexivity.
  - rewrite <- Ee. assert (NE : expenses <> []) by (rewrite Ee; discriminate).
    destruct (dates_valid_or_not expenses) as [V|[e [He Hd]]].
    + destruct (earliest_exists expenses NE V) as [tmin Hmin].
      destruct (latest_exists expenses NE V) as [tmax Hmax].
      exists (Z.to_nat (monthOf tz tmax - monthOf tz tmin + 1)). intros fuel Hf.
      eexists. apply (getMonthlyExpensesByCategory_valid tz expenses tmin tmax fuel);
        assumption.
    + exists O. intros fuel _. exists [].
      apply (getMonthlyExpensesByCategory_invalid tz fuel expenses e He Hd).
Qed.

(** ** The heap *)

Lemma bind_run {A B} (c : M A) (k : A -> M B) h a h' :
  c h = Some (a, h') -> bind c k h = k a h'.
Proof. intros E. unfold bind. rewrite E. reflexivity. Qed.

Lemma readExpenses_run h a items :
  nth_error h a = Some (ExpenseArray items) -> readExpenses a h = Some (items, h).
Proof. intros E. unfold readExpenses, bind, load. rewrite E. reflexivity. Qed.

Lemma readDates_run h a items :
  nth_error h a = Some (DateArray items) -> readDates a h = Some (items, h).
Proof. intros E. unfold readDates, bind, load. rewrite E. reflexivity. Qed.

Lemma readNumbers_run h a items :
  nth_error h a = Some (NumberArray items) -> readNumbers a h = Some (items, h).
Proof. intros E. unfold readNumbers, bind, load. rewrite E. reflexivity. Qed.

Lemma readMonth_run h a obj :
  nth_error h a = Some (MonthObject obj) -> readMonth a h = Some (obj, h).
Proof. intros E. unfold readMonth, bind, load. rewrite E. reflexivity. Qed.

Lemma readRefs_run h a refs :
  nth_error h a = Some (MonthArray refs) -> readRefs a h = Some (refs, h).
Proof. intros E. unfold readRefs, bind, load. rewrite E. reflexivity. Qed.

Lemma nth_error_last {A} (l : list A) x : nth_error (l ++ [x]) (List.length l) = Some x.
Proof. rewrite nth_error_app2 by lia. rewrite Nat.sub_diag. reflexivity. Qed.

Lemma nth_error_old {A} (l f : list A) a :
  (a < List.length l)%nat -> nth_error (l ++ f) a = nth_error l a.
Proof. intros H. apply nth_error_app1, H. Qed.

Lemma nth_error_Some_lt {A} (l : list A) a x :
  nth_error l a = Some x -> (a < List.length l)%nat.
Proof. intros H. apply nth_error_Some. congruence. Qed.

Lemma store_last h c c' :
  store (List.length h) c' (h ++ [c]) = Some (tt, h ++ [c']).
Proof.
  unfold store. rewrite length_app. cbn [List.length].
  replace (List.length h <? List.length h + 1)%nat with true
    by (symmetry; apply Nat.ltb_lt; lia).
  rewrite firstn_app, Nat.sub_diag, firstn_all. cbn [firstn].
  rewrite app_nil_r. rewrite skipn_all2 by (rewrite length_app; cbn; lia).
  reflexivity.
Qed.

(** A store at an address of the part [f] of a heap [h0 ++ f] leaves
    [h0] alone. *)
Lemma store_fresh h0 f a c :
  (List.length h0 <= a < List.length (h0 ++ f))%nat ->
  exists f',
    store a c (h0 ++ f) = Some (tt, h0 ++ f')
    /\ List.length f' = List.length f
    /\ nth_error (h0 ++ f') a = Some c
    /\ forall b, b <> a -> nth_error (h0 ++ f') b = nth_error (h0 ++ f) b.
Proof.
  intros [L U]. rewrite length_app in U.
  exists (firstn (a - List.length h0) f ++ c :: skipn (S (a - List.length h0)) f).
  assert (Hl : List.length (firstn (a - List.length h0) f) = (a - List.length h0)%nat)
    by (apply firstn_length_le; lia).
  split; [|split; [|split]].
  - unfold store. rewrite length_app.
    replace (a <? List.length h0 + List.length f)%nat with true
      by (symmetry; apply Nat.ltb_lt; lia).
    rewrite firstn_app, skipn_app.
    rewrite firstn_all2 by lia. rewrite skipn_all2 by lia.
    replace (S a - List.length h0)%nat with (S (a - List.length h0)) by lia.
    cbn [app]. rewrite <- app_assoc. reflexivity.
  - rewrite length_app. cbn [List.length]. rewrite Hl, length_skipn. lia.
  - rewrite nth_error_app2 by lia. rewrite nth_error_app2 by lia.
    rewrite Hl, Nat.sub_diag. reflexivity.
  - intros b Hb. destruct (Nat.lt_ge_cases b (List.length h0)) as [Lb|Gb].
    + rewrite !nth_error_app1 by lia. reflexivity.
    + rewrite !(nth_error_app2 h0) by lia.
      destruct (Nat.lt_ge_cases (b - List.length h0) (a - List.length h0)) as [L2|G2].
      * rewrite nth_error_app1 by lia. rewrite nth_error_firstn.
        replace (b - List.length h0 <? a - List.length h0)%nat with true
          by (symmetry; apply Nat.ltb_lt; lia).
        reflexivity.
      * rewrite nth_error_app2 by lia. rewrite Hl.
        replace (b - List.length h0 - (a - List.length h0))%nat
          with (S (b - List.length h0 - S (a - List.length h0))) by lia.
        cbn [nth_error]. rewrite nth_error_skipn. f_equal. lia.
Qed.

Section HeapFacts.

Variable tz : Z.

Lemma arrayFilter_run p h a items :
  nth_error h a = Some (ExpenseArray items) ->
  arrayFilter p a h = Some (List.length h, h ++ [ExpenseArray (filter p items)]).
Proof.
  intros E. unfold arrayFilter. rewrite (bind_run _ _ _ _ _ (readExpenses_run _ _ _ E)).
  reflexivity.
Qed.

Lemma filtering_arrayFilter p h0 h cur items :
  filtering h0 h cur items ->
  exists cur' h',
    arrayFilter p cur h = Some (cur', h') /\ filtering h0 h' cur' (filter p items).
Proof.
  intros [[f ->] [L E]]. exists (List.length (h0 ++ f)), ((h0 ++ f) ++ [ExpenseArray (filter p items)]).
  split; [apply arrayFilter_run, E|]. split; [|split].
  - exists (f ++ [ExpenseArray (filter p items)]). rewrite app_assoc. reflexivity.
  - rewrite length_app. lia.
  - apply nth_error_last.
Qed.

Lemma filtering_optional (b : bool) p h0 h cur items :
  filtering h0 h cur items ->
  exists cur' h',
    (if b then arrayFilter p cur else ret cur) h = Some (cur', h')
    /\ filtering h0 h' cur' (if b then filter p items else items).
Proof.
  intros F. destruct b; [apply filtering_arrayFilter, F|].
  exists cur, h. split; [reflexivity|exact F].
Qed.

(** [getFilteredExpensesH] allocates new arrays only, and the array it
    returns holds what [getFilteredExpenses] computes. *)
Lemma getFilteredExpensesH_run now h a items dateFilter categories paymentModes :
  nth_error h a = Some (ExpenseArray items) ->
  exists r fresh,
    getFilteredExpensesH tz now a dateFilter categories paymentModes h
    = Some (r, h ++ fresh)
    /\ (List.length h <= r)%nat
    /\ nth_error (h ++ fresh) r
       = Some (ExpenseArray
                 (getFilteredExpenses tz now items dateFilter categories paymentModes)).
Proof.
  intros E. unfold getFilteredExpensesH.
  rewrite (bind_run _ _ _ _ _ (readExpenses_run _ _ _ E)).
  rewrite (bind_run _ _ h _ _ eq_refl : bind (alloc (ExpenseArray items)) _ h = _).
  cbn zeta.
  assert (F0 : filtering h (h ++ [ExpenseArray items]) (List.length h) items).
  { split; [eexists; reflexivity|]. split; [lia|apply nth_error_last]. }
  assert (F1 : exists cur1 h1,
    match dateFilter with
    | ThisMonth =>
        arrayFilter (fun expense =>
                       date_ge (date expense) (startOfMonth tz (Some now))
                       && date_le (date expense) (endOfMonth tz (Some now)))
                    (List.length h)
    | Last30Days =>
        arrayFilter (fun expense =>
                       date_ge (date expense)
                               (subDays tz (startOfDay tz (Some now)) 30))
                    (List.length h)
    | Last90Days =>
        arrayFilter (fun expense =>
                       date_ge (date expense)
                               (subDays tz (startOfDay tz (Some now)) 90))
                    (List.length h)
    | AllTime => ret (List.length h)
    end (h ++ [ExpenseArray items]) = Some (cur1, h1)
    /\ filtering h h1 cur1
         match dateFilter with
         | ThisMonth =>
             filter (fun expense =>
                       date_ge (date expense) (startOfMonth tz (Some now))
                       && date_le (date expense) (endOfMonth tz (Some now))) items
         | Last30Days =>
             filter (fun expense =>
                       date_ge (date expense)
                               (subDays tz (startOfDay tz (Some now)) 30)) items
         | Last90Days =>
             filter (fun expense =>
                       date_ge (date expense)
                               (subDays tz (startOfDay tz (Some now)) 90)) items
         | AllTime => items
         end).
  { destruct dateFilter; try (apply filtering_arrayFilter, F0).
    eexists _, _. split; [reflexivity|exact F0]. }
  destruct F1 as [cur1 [h1 [R1 F1]]]. rewrite (bind_run _ _ _ _ _ R1).
  destruct (filtering_optional (0 <? List.length categories)%nat
              (fun expense => includesCategory categories (category expense))
              _ _ _ _ F1) as [cur2 [h2 [R2 F2]]].
  rewrite (bind_run _ _ _ _ _ R2).
  destruct (filtering_optional (0 <? List.length paymentModes)%nat
              (fun expense => includesPaymentMode paymentModes (paymentMode expense))
              _ _ _ _ F2) as [cur3 [h3 [R3 F3]]].
  rewrite (bind_run _ _ _ _ _ R3).
  destruct F3 as [[f ->] [L3 E3]].
  exists cur3, f. split; [reflexivity|]. split; [exact L3|].
  rewrite E3. unfold getFilteredExpenses. cbn zeta. reflexivity.
Qed.

End HeapFacts.

Section HeapMonthlyFacts.

Variable tz : Z.

(** The pass over the records updates the [monthData] object, the last
    cell of the heap, as [addToMonth] says, and nothing else. *)
Lemma forEach_addToMonthH monthStart monthEnd g items :
  forall obj,
    forEach (addToMonthH monthStart monthEnd (List.length g)) items
            (g ++ [MonthObject obj])
    = Some (tt, g ++ [MonthObject (fold_left (addToMonth monthStart monthEnd)
                                             items obj)]).
Proof.
  induction items as [|e rest IH]; intros obj; [reflexivity|].
  cbn [forEach fold_left].
  assert (B : addToMonthH monthStart monthEnd (List.length g) e
                          (g ++ [MonthObject obj])
              = Some (tt, g ++ [MonthObject (addToMonth monthStart monthEnd obj e)])).
  { unfold addToMonthH, addToMonth.
    destruct (date_ge (date e) monthStart && date_le (date e) monthEnd);
      [|reflexivity].
    rewrite (bind_run _ _ _ _ _ (readMonth_run _ _ _ (nth_error_last g _))).
    apply store_last. }
  rewrite (bind_run _ _ _ _ _ B). apply IH.
Qed.

Lemma derefMonths_ext h h' refs :
  (forall r, In r refs -> nth_error h' r = nth_error h r) ->
  derefMonths h' refs = derefMonths h refs.
Proof.
  intros H. unfold derefMonths. apply map_ext_in. intros r Hr.
  rewrite (H r Hr). reflexivity.
Qed.

Lemma derefMonths_objects h refs objs :
  derefMonths h refs = map Some objs ->
  forall r, In r refs -> exists obj, nth_error h r = Some (MonthObject obj).
Proof.
  revert objs. induction refs as [|r0 refs IH]; intros objs E r Hr; [destruct Hr|].
  destruct objs as [|o objs]; [discriminate|].
  cbn [derefMonths map] in E. inversion E as [[E1 E2]].
  destruct Hr as [<-|Hr].
  - destruct (nth_error h r0) as [[]|]; try discriminate. eexists; reflexivity.
  - apply (IH objs); assumption.
Qed.

Lemma derefMonths_app h refs1 refs2 :
  derefMonths h (refs1 ++ refs2) = derefMonths h refs1 ++ derefMonths h refs2.
Proof. apply map_app. Qed.

(** The loop on the heap appends to the [months] array references to new
    objects that hold the entries the loop of [whileMonths] computes, and
    changes no cell of the initial heap [h0]. *)
Lemma whileMonthsH_run endDate a items h0 ms :
  nth_error h0 a = Some (ExpenseArray items) ->
  (List.length h0 <= ms)%nat ->
  forall fuel currentDate acc result f refs,
    whileMonths tz fuel items endDate currentDate acc = Some result ->
    nth_error (h0 ++ f) ms = Some (MonthArray refs) ->
    derefMonths (h0 ++ f) refs = map Some acc ->
    exists f' refs',
      whileMonthsH tz fuel a endDate currentDate ms (h0 ++ f) = Some (tt, h0 ++ f')
      /\ nth_error (h0 ++ f') ms = Some (MonthArray refs')
      /\ derefMonths (h0 ++ f') refs' = map Some result.
Proof.
  intros Ea Lms. induction fuel as [|fuel IH];
    intros currentDate acc result f refs W Ems D.
  - cbn [whileMonths whileMonthsH] in *.
    destruct (date_le currentDate endDate); [discriminate|].
    inversion W; subst. exists f, refs. repeat split; assumption.
  - cbn [whileMonths whileMonthsH] in *.
    destruct (date_le currentDate endDate).
    + set (g := h0 ++ f) in *.
      assert (Hms : (ms < List.length g)%nat) by (eapply nth_error_Some_lt; exact Ems).
      assert (Ha : (a < List.length h0)%nat) by (eapply nth_error_Some_lt; exact Ea).
      rewrite (bind_run _ _ g _ _ eq_refl : bind (alloc _) _ g = _).
      cbn zeta.
      match goal with |- context [g ++ [MonthObject ?o]] => set (init := o) end.
      assert (Eg1 : nth_error (g ++ [MonthObject init]) a = Some (ExpenseArray items)).
      { unfold g. rewrite <- app_assoc, nth_error_app1 by exact Ha. exact Ea. }
      rewrite (bind_run _ _ _ _ _ (readExpenses_run _ _ _ Eg1)).
      rewrite (bind_run _ _ _ _ _ (forEach_addToMonthH _ _ g items init)).
      change (fold_left _ items init) with (monthEntry tz items currentDate).
      set (entry := monthEntry tz items currentDate) in *.
      set (g2 := g ++ [MonthObject entry]).
      assert (Eg2 : nth_error g2 ms = Some (MonthArray refs)).
      { unfold g2. rewrite nth_error_app1 by exact Hms. exact Ems. }
      assert (Hg2 : g2 = h0 ++ (f ++ [MonthObject entry]))
        by (unfold g2, g; rewrite app_assoc; reflexivity).
      destruct (store_fresh h0 (f ++ [MonthObject entry]) ms
                  (MonthArray (refs ++ [List.length g])))
        as [f3 [S3 [L3 [N3 O3]]]].
      { rewrite <- Hg2. unfold g2. rewrite length_app. cbn. lia. }
      rewrite <- Hg2 in S3, O3.
      assert (P3 : push ms (List.length g) g2 = Some (tt, h0 ++ f3)).
      { unfold push. rewrite (bind_run _ _ _ _ _ (readRefs_run _ _ _ Eg2)). exact S3. }
      rewrite (bind_run _ _ _ _ _ P3).
      apply (IH _ (acc ++ [entry]) result f3 (refs ++ [List.length g]) W N3).
      rewrite derefMonths_app, map_app. f_equal.
      * rewrite <- D. apply derefMonths_ext. intros r Hr.
        destruct (derefMonths_objects _ _ _ D r Hr) as [obj Er].
        assert (r <> ms) by (intros ->; fold g in Er; congruence).
        rewrite O3 by assumption. unfold g2. fold g.
        apply nth_error_app1. eapply nth_error_Some_lt. exact Er.
      * cbn [derefMonths map]. rewrite O3 by lia.
        unfold g2. rewrite nth_error_last. reflexivity.
    + inversion W; subst. exists f, refs. repeat split; assumption.
Qed.

(** [getMonthlyExpensesByCategoryH] allocates new cells and updates new
    cells only, and the array it returns holds what
    [getMonthlyExpensesByCategory] computes. *)
Lemma getMonthlyExpensesByCategoryH_run fuel h a items months :
  nth_error h a = Some (ExpenseArray items) ->
  getMonthlyExpensesByCategory tz fuel items = Some months ->
  exists r fresh,
    getMonthlyExpensesByCategoryH tz fuel a h = Some (r, h ++ fresh)
    /\ (List.length h <= r)%nat
    /\ monthsAt (h ++ fresh) r = Some (map Some months).
Proof.
  intros E P. unfold getMonthlyExpensesByCategoryH, getMonthlyExpensesByCategory in *.
  rewrite (bind_run _ _ _ _ _ (readExpenses_run _ _ _ E)).
  destruct (List.length items =? 0)%nat.
  - inversion P; subst. exists (List.length h), [MonthArray []].
    split; [reflexivity|]. split; [lia|].
    unfold monthsAt. rewrite nth_error_last. reflexivity.
  - cbn zeta in P.
    rewrite (bind_run _ _ h _ _ eq_refl : bind (alloc _) _ h = _).
    set (h1 := h ++ [DateArray (map date items)]).
    assert (E1 : nth_error h1 (List.length h) = Some (DateArray (map date items)))
      by apply nth_error_last.
    rewrite (bind_run _ _ h1 _ _ (readDates_run h1 _ _ E1)).
    rewrite (bind_run _ _ h1 _ _ eq_refl : bind (alloc _) _ h1 = _).
    set (h2 := h1 ++ [NumberArray (map getTime (map date items))]).
    rewrite (bind_run _ _ h2 _ _ (readNumbers_run h2 _ _ (nth_error_last h1 _))).
    assert (E2 : nth_error h2 (List.length h) = Some (DateArray (map date items))).
    { unfold h2. rewrite nth_error_app1; [exact E1|].
      unfold h1. rewrite length_app. cbn. lia. }
    rewrite (bind_run _ _ h2 _ _ (readDates_run h2 _ _ E2)).
    rewrite (bind_run _ _ h2 _ _ eq_refl : bind (alloc _) _ h2 = _).
    set (h3 := h2 ++ [NumberArray (map getTime (map date items))]).
    rewrite (bind_run _ _ h3 _ _ (readNumbers_run h3 _ _ (nth_error_last h2 _))).
    cbn zeta.
    rewrite (bind_run _ _ h3 _ _ eq_refl : bind (alloc _) _ h3 = _).
    set (f4 := [DateArray (map date items);
                NumberArray (map getTime (map date items));
                NumberArray (map getTime (map date items));
                MonthArray []]).
    assert (H4 : h3 ++ [MonthArray []] = h ++ f4).
    { unfold h3, h2, h1, f4. rewrite <- !app_assoc. reflexivity. }
    assert (L3 : List.length h3 = (List.length h + 3)%nat).
    { unfold h3, h2, h1. rewrite !length_app. cbn. lia. }
    rewrite H4.
    assert (Ems : nth_error (h ++ f4) (List.length h3) = Some (MonthArray [])).
    { rewrite <- H4. apply nth_error_last. }
    destruct (whileMonthsH_run _ a items h (List.length h3) E ltac:(lia)
                fuel _ [] months f4 [] P Ems eq_refl) as [f' [refs' [W [N D]]]].
    rewrite (bind_run _ _ _ _ _ W).
    exists (List.length h3), f'. split; [reflexivity|]. split; [lia|].
    unfold monthsAt. rewrite N, D. reflexivity.
Qed.

End HeapMonthlyFacts.

(** ** Dates as text *)
















(** ** Persistence *)

Section PersistenceFacts.

Variable tz : Z.










(** The load effect never throws. *)
Lemma loadEffect_normal localStorage p :
  exists p', loadEffect tz localStorage p = Normal p'.
Proof.
  unfold loadEffect. destruct localStorage as [text|]; [|eexists; reflexivity].
  destruct (truthy text); [|eexists; reflexivity].
  destruct (parseExpenses tz text); cbn [andThen tryCatch]; eexists; reflexivity.
Qed.



End PersistenceFacts.

(** ** The filters, in general *)

Lemma filter_and {A} (p q : A -> bool) (l : list A) :
  filter q (filter p l) = filter (fun x => p x && q x) l.
Proof.
  induction l as [|x l IH]; [reflexivity|].
  cbn [filter]. destruct (p x); cbn [filter andb]; rewrite IH; reflexivity.
Qed.

Lemma filter_true {A} (l : list A) : filter (fun _ => true) l = l.
Proof. induction l as [|x l IH]; [reflexivity|]. cbn. rewrite IH. reflexivity. Qed.

Lemma filter_idempotent {A} (p : A -> bool) (l : list A) :
  filter p (filter p l) = filter p l.
Proof.
  rewrite filter_and. apply filter_ext. intros x. destruct (p x); reflexivity.
Qed.

Section FilterGeneral.

Variable tz : Z.

Lemma dateFilter_step now dateFilter (l : list Expense) :
  match dateFilter with
  | ThisMonth =>
      filter (fun expense =>
                date_ge (date expense) (startOfMonth tz (Some now))
                && date_le (date expense) (endOfMonth tz (Some now))) l
  | Last30Days =>
      filter (fun expense =>
                date_ge (date expense) (subDays tz (startOfDay tz (Some now)) 30)) l
  | Last90Days =>
      filter (fun expense =>
                date_ge (date expense) (subDays tz (startOfDay tz (Some now)) 90)) l
  | AllTime => l
  end = filter (keptByDate tz now dateFilter) l.
Proof.
  destruct dateFilter; cbn [keptByDate].
  - apply filter_ext. intros e. apply thisMonth_test.
  - apply filter_ext. intros e. apply lastDays_test.
  - apply filter_ext. intros e. apply lastDays_test.
  - symmetry. apply filter_true.
Qed.

(** [getFilteredExpenses] is one filter: the conjunction of the three
    tests. *)
Lemma getFilteredExpenses_filter now expenses dateFilter categories paymentModes :
  getFilteredExpenses tz now expenses dateFilter categories paymentModes
  = filter (fun e => keptByDate tz now dateFilter e
                     && keptByCategory categories e
                     && keptByPaymentMode paymentModes e) expenses.
Proof.
  unfold getFilteredExpenses. cbn zeta.
  pose proof (dateFilter_step now dateFilter expenses) as D.
  cbn zeta in D. rewrite D.
  rewrite <- filter_and, <- filter_and.
  assert (C : (if (0 <? List.length categories)%nat
               then filter (fun expense => includesCategory categories (category expense))
                           (filter (keptByDate tz now dateFilter) expenses)
               else filter (keptByDate tz now dateFilter) expenses)
              = filter (keptByCategory categories)
                       (filter (keptByDate tz now dateFilter) expenses)).
  { destruct categories; cbn [List.length Nat.ltb Nat.leb keptByCategory].
    - symmetry. apply filter_true.
    - reflexivity. }
  rewrite C.
  destruct paymentModes; cbn [List.length Nat.ltb Nat.leb keptByPaymentMode].
  - symmetry. apply filter_true.
  - reflexivity.
Qed.

(** The first day of the current month is at most 30 days back. *)
Lemma firstDayOfCurrentMonth_recent now :
  dayOf tz now - 30 <= firstDayOfCurrentMonth tz now.
Proof.
  unfold firstDayOfCurrentMonth.
  pose proof (proj1 (monthOf_day tz now _) eq_refl) as B.
  pose proof (MonthStartDay_step (monthOf tz now)). lia.
Qed.

Lemma datedFrom_day d e :
  datedFrom (startOfDayNumber tz d) e = true
  <-> exists t, date e = Some t /\ d <= dayOf tz t.
Proof.
  unfold datedFrom. destruct (date e) as [t|].
  - rewrite Z.leb_le, startOfDayNumber_le. split.
    + intros H. exists t. split; [reflexivity|exact H].
    + intros [u [E H]]. inversion E; subst. exact H.
  - split; [discriminate|intros [t [E _]]; discriminate].
Qed.

Lemma keptByDate_nested now e :
  (keptByDate tz now ThisMonth e = true -> keptByDate tz now Last30Days e = true)
  /\ (keptByDate tz now Last30Days e = true -> keptByDate tz now Last90Days e = true).
Proof.
  cbn [keptByDate]. split.
  - intros H. apply datedFrom_day. unfold datedWithin in H.
    destruct (date e) as [t|]; [|discriminate].
    apply andb_true_iff in H. destruct H as [H _]. apply Z.leb_le in H.
    exists t. split; [reflexivity|].
    pose proof (firstDayOfCurrentMonth_recent now). lia.
  - intros H. apply datedFrom_day in H. destruct H as [t [E H]].
    apply datedFrom_day. exists t. split; [exact E|lia].
Qed.

Lemma keptByDate_invalid now dateFilter e :
  date e = None -> dateFilter <> AllTime -> keptByDate tz now dateFilter e = false.
Proof.
  intros E NA. destruct dateFilter; cbn [keptByDate]; try congruence;
    unfold datedWithin, datedFrom; rewrite E; reflexivity.
Qed.

End FilterGeneral.

Lemma includesCategory_In categories c :
  includesCategory categories c = true <-> In c categories.
Proof.
  unfold includesCategory. rewrite existsb_exists. split.
  - intros [x [Hx E]]. apply Category_eqb_eq in E. subst. exact Hx.
  - intros H. exists c. split; [exact H|apply Category_eqb_eq; reflexivity].
Qed.

Lemma includesPaymentMode_In paymentModes p :
  includesPaymentMode paymentModes p = true <-> In p paymentModes.
Proof.
  unfold includesPaymentMode. rewrite existsb_exists. split.
  - intros [x [Hx E]]. apply PaymentMode_eqb_eq in E. subst. exact Hx.
  - intros H. exists p. split; [exact H|apply PaymentMode_eqb_eq; reflexivity].
Qed.

(** ** The aggregation and the order of the records *)







Section MonthlyOrder.

Variable tz : Z.








End MonthlyOrder.

(** ** Sorting *)

Section SortFacts.

Context {A : Type}.
Variable comparefn : A -> A -> Number.

Lemma sortInsert_Permutation x (l : list A) :
  Permutation (sortInsert comparefn x l) (x :: l).
Proof.
  induction l as [|y l IH]; cbn [sortInsert]; [reflexivity|].
  destruct (SortCompare comparefn x y <=? 0); [reflexivity|].
  rewrite IH. apply perm_swap.
Qed.

Lemma Array_sort_Permutation (l : list A) : Permutation (Array_sort comparefn l) l.
Proof.
  induction l as [|x l IH]; [reflexivity|].
  cbn [Array_sort fold_right]. fold (Array_sort comparefn l).
  rewrite sortInsert_Permutation. constructor. exact IH.
Qed.

(** For a comparator that compares by a key, the result is in ascending
    order of the key. *)
Variable key : A -> Z.
Variable P : A -> Prop.
Hypothesis compare_key :
  forall a b, P a -> P b -> SortCompare comparefn a b = key a - key b.

Lemma sortInsert_ascending x (l : list A) :
  P x -> Forall P l ->
  ascending (fun a b => key a - key b) l ->
  ascending (fun a b => key a - key b) (sortInsert comparefn x l).
Proof.
  intros Px. induction l as [|y l IH]; intros F Asc; cbn [sortInsert].
  - split; [intros z []|exact I].
  - inversion F as [|? ? Py Fl]; subst. destruct Asc as [Hy Asc].
    rewrite (compare_key x y Px Py).
    destruct (Z.leb_spec (key x - key y) 0) as [L|G].
    + split; [|split; assumption].
      intros z [<-|Hz]; [exact L|]. specialize (Hy z Hz). lia.
    + split; [|apply IH; assumption].
      intros z Hz.
      apply (Permutation_in z (sortInsert_Permutation x l)) in Hz.
      destruct Hz as [<-|Hz]; [lia|apply Hy, Hz].
Qed.

Lemma Array_sort_ascending (l : list A) :
  Forall P l -> ascending (fun a b => key a - key b) (Array_sort comparefn l).
Proof.
  induction l as [|x l IH]; intros F; [exact I|].
  inversion F as [|? ? Px Fl]; subst.
  cbn [Array_sort fold_right]. fold (Array_sort comparefn l).
  apply sortInsert_ascending; [exact Px| |apply IH, Fl].
  apply Forall_forall. intros z Hz.
  apply (Permutation_in z (Array_sort_Permutation l)) in Hz.
  revert z Hz. apply Forall_forall, Fl.
Qed.

(** The sort is stable: the elements of one key keep their order. *)
Lemma sortInsert_filter_key k x (l : list A) :
  P x -> Forall P l ->
  filter (fun z => key z =? k) (sortInsert comparefn x l)
  = filter (fun z => key z =? k) (x :: l).
Proof.
  intros Px. induction l as [|y l IH]; intros F; cbn [sortInsert]; [reflexivity|].
  inversion F as [|? ? Py Fl]; subst.
  rewrite (compare_key x y Px Py).
  destruct (Z.leb_spec (key x - key y) 0) as [L|G]; [reflexivity|].
  cbn [filter] in *. rewrite (IH Fl).
  destruct (Z.eqb_spec (key x) k), (Z.eqb_spec (key y) k); try reflexivity. lia.
Qed.

Lemma Array_sort_stable k (l : list A) :
  Forall P l ->
  filter (fun z => key z =? k) (Array_sort comparefn l)
  = filter (fun z => key z =? k) l.
Proof.
  induction l as [|x l IH]; intros F; [reflexivity|].
  inversion F as [|? ? Px Fl]; subst.
  cbn [Array_sort fold_right]. fold (Array_sort comparefn l).
  rewrite sortInsert_filter_key.
  - cbn [filter]. rewrite (IH Fl). reflexivity.
  - exact Px.
  - apply Forall_forall. intros z Hz.
    apply (Permutation_in z (Array_sort_Permutation l)) in Hz.
    revert z Hz. apply Forall_forall, Fl.
Qed.

End SortFacts.

(** The comparator of the list view compares by [sortKey]: always when
    it sorts by amount, and on valid dates when it sorts by date. *)
Lemma compareExpenses_key sortField sortDirection a b :
  (sortField = SortByDate -> date a <> None /\ date b <> None) ->
  SortCompare (compareExpenses sortField sortDirection) a b
  = sortKey sortField sortDirection a - sortKey sortField sortDirection b.
Proof.
  intros V. unfold SortCompare, compareExpenses, sortKey.
  destruct sortField.
  - destruct (V eq_refl) as [Va Vb].
    destruct (date a) as [ta|]; [|congruence].
    destruct (date b) as [tb|]; [|congruence].
    destruct sortDirection; cbn; lia.
  - destruct sortDirection; cbn; lia.
Qed.


Section ListViewFacts.

Variable tz : Z.
Variable toLowerCase : string -> string.
Variable trim : string -> string.

(** The list view sorts the records that pass the three filters and the
    search. *)
Lemma filteredExpenses_sorted_shown now collection dateFilter categories paymentModes
    searchTerm sortField sortDirection :
  filteredExpenses tz toLowerCase trim now collection dateFilter categories
                   paymentModes searchTerm sortField sortDirection
  = Array_sort (compareExpenses sortField sortDirection)
      (shownRecords tz toLowerCase trim now collection dateFilter categories
                    paymentModes searchTerm).
Proof.
  unfold filteredExpenses, shownRecords. cbn zeta. f_equal.
  rewrite getFilteredExpenses_filter. unfold keptBySearch.
  destruct (String.eqb (trim searchTerm) EmptyString); cbn [negb].
  - apply filter_ext. intros e. rewrite andb_true_r. reflexivity.
  - rewrite filter_and. reflexivity.
Qed.

End ListViewFacts.

(** ** Selections and totals *)

Lemma keptByCategory_members (cs cs' : list Category) e :
  (forall c, In c cs <-> In c cs') -> keptByCategory cs e = keptByCategory cs' e.
Proof.
  intros H. unfold keptByCategory.
  destruct cs as [|c0 cs], cs' as [|c0' cs']; [reflexivity| | |].
  - exfalso. apply (proj2 (H c0')). left. reflexivity.
  - exfalso. apply (proj1 (H c0)). left. reflexivity.
  - apply eq_true_iff_eq. rewrite !includesCategory_In. apply H.
Qed.

Lemma keptByPaymentMode_members (ps ps' : list PaymentMode) e :
  (forall p, In p ps <-> In p ps') -> keptByPaymentMode ps e = keptByPaymentMode ps' e.
Proof.
  intros H. unfold keptByPaymentMode.
  destruct ps as [|p0 ps], ps' as [|p0' ps']; [reflexivity| | |].
  - exfalso. apply (proj2 (H p0')). left. reflexivity.
  - exfalso. apply (proj1 (H p0)). left. reflexivity.
  - apply eq_true_iff_eq. rewrite !includesPaymentMode_In. apply H.
Qed.

Lemma toggleCategory_In category prev c :
  In c (toggleCategory category prev)
  <-> (c = category /\ ~ In category prev) \/ (c <> category /\ In c prev).
Proof.
  unfold toggleCategory.
  destruct (includesCategory prev category) eqn:E.
  - apply includesCategory_In in E. rewrite filter_In, negb_true_iff.
    split.
    + intros [H N]. right. split; [|exact H]. intros ->.
      rewrite (proj2 (Category_eqb_eq _ _) eq_refl) in N. discriminate.
    + intros [[-> N]|[N H]]; [contradiction|]. split; [exact H|].
      apply not_true_is_false. intros T. apply Category_eqb_eq in T. contradiction.
  - assert (N : ~ In category prev).
    { intros H. apply includesCategory_In in H. congruence. }
    rewrite in_app_iff. cbn [In]. split.
    + intros [H|[<-|[]]].
      * right. split; [intros ->; contradiction|exact H].
      * left. split; [reflexivity|exact N].
    + intros [[-> _]|[_ H]]; [right; left; reflexivity|left; exact H].
Qed.

Lemma togglePaymentMode_In mode prev m :
  In m (togglePaymentMode mode prev)
  <-> (m = mode /\ ~ In mode prev) \/ (m <> mode /\ In m prev).
Proof.
  unfold togglePaymentMode.
  destruct (includesPaymentMode prev mode) eqn:E.
  - apply includesPaymentMode_In in E. rewrite filter_In, negb_true_iff.
    split.
    + intros [H N]. right. split; [|exact H]. intros ->.
      rewrite (proj2 (PaymentMode_eqb_eq _ _) eq_refl) in N. discriminate.
    + intros [[-> N]|[N H]]; [contradiction|]. split; [exact H|].
      apply not_true_is_false. intros T. apply PaymentMode_eqb_eq in T. contradiction.
  - assert (N : ~ In mode prev).
    { intros H. apply includesPaymentMode_In in H. congruence. }
    rewrite in_app_iff. cbn [In]. split.
    + intros [H|[<-|[]]].
      * right. split; [intros ->; contradiction|exact H].
      * left. split; [reflexivity|exact N].
    + intros [[-> _]|[_ H]]; [right; left; reflexivity|left; exact H].
Qed.

Lemma NoDup_snoc {A} (l : list A) x : NoDup l -> ~ In x l -> NoDup (l ++ [x]).
Proof.
  intros ND N. induction ND as [|y l Hy ND IH]; cbn [app].
  - constructor; [intros []|constructor].
  - constructor.
    + rewrite in_app_iff. cbn [In]. intros [H|[H|[]]]; [contradiction|].
      subst. apply N. left. reflexivity.
    + apply IH. intros H. apply N. right. exact H.
Qed.

Lemma toggleCategory_NoDup category prev :
  NoDup prev -> NoDup (toggleCategory category prev).
Proof.
  intros ND. unfold toggleCategory.
  destruct (includesCategory prev category) eqn:E.
  - apply NoDup_filter, ND.
  - apply NoDup_snoc; [exact ND|].
    intros H. apply includesCategory_In in H. congruence.
Qed.

Lemma togglePaymentMode_NoDup mode prev :
  NoDup prev -> NoDup (togglePaymentMode mode prev).
Proof.
  intros ND. unfold togglePaymentMode.
  destruct (includesPaymentMode prev mode) eqn:E.
  - apply NoDup_filter, ND.
  - apply NoDup_snoc; [exact ND|].
    intros H. apply includesPaymentMode_In in H. congruence.
Qed.





(** ** Substrings *)

Lemma string_append_assoc (a b c : string) :
  ((a ++ b) ++ c = a ++ (b ++ c))%string.
Proof. induction a as [|x a IH]; [reflexivity|]. cbn. rewrite IH. reflexivity. Qed.

Lemma prefix_iff (a s : string) :
  String.prefix a s = true <-> exists b, s = (a ++ b)%string.
Proof.
  revert s. induction a as [|x a IH]; intros s.
  - destruct s; cbn; (split; [intros _; eexists; reflexivity|reflexivity]).
  - destruct s as [|y s]; cbn [String.prefix append].
    + split; [discriminate|intros [b H]; discriminate].
    + destruct (ascii_dec x y) as [->|NE].
      * rewrite IH. split.
        -- intros [b ->]. exists b. reflexivity.
        -- intros [b H]. inversion H. exists b. reflexivity.
      * split; [discriminate|]. intros [b H]. inversion H. congruence.
Qed.

Lemma String_includes_iff (s sub : string) :
  String_includes s sub = true <-> exists a b, s = (a ++ sub ++ b)%string.
Proof.
  induction s as [|x s IH].
  - cbn [String_includes]. destruct (String.prefix sub EmptyString) eqn:P.
    + apply prefix_iff in P. destruct P as [b P].
      split; [intros _; exists EmptyString, b; exact P|reflexivity].
    + split; [discriminate|]. intros [a [b H]].
      assert (Pt : String.prefix sub EmptyString = true).
      { apply prefix_iff. destruct a; [exists b; exact H|discriminate]. }
      congruence.
  - cbn [String_includes]. destruct (String.prefix sub (String x s)) eqn:P.
    + apply prefix_iff in P. destruct P as [b P].
      split; [intros _; exists EmptyString, b; exact P|reflexivity].
    + rewrite IH. split.
      * intros [a [b ->]]. exists (String x a), b. reflexivity.
      * intros [a [b H]]. destruct a as [|y a].
        -- assert (Pt : String.prefix sub (String x s) = true)
             by (apply prefix_iff; exists b; exact H).
           congruence.
        -- cbn [append] in H. inversion H. exists a, b. reflexivity.
Qed.

Lemma String_includes_trans (s mid sub : string) :
  String_includes s mid = true -> String_includes mid sub = true ->
  String_includes s sub = true.
Proof.
  rewrite !String_includes_iff. intros [a [b ->]] [a' [b' ->]].
  exists (a ++ a')%string, (b' ++ b)%string.
  rewrite !string_append_assoc. reflexivity.
Qed.

(** ** Saving and loading, in general *)





Section PersistenceMore.

Variable tz : Z.



End PersistenceMore.

(* ================================================================= *)
(** * The claims *)

(** ** Filtering *)

(** C6: with an empty category set, an empty payment-mode set and the
    filter All-time, [getFilteredExpenses] returns the whole collection in
    its original order; more generally, under All-time an empty set does
    not filter on its attribute and a non-empty set keeps the records
    whose attribute is in it. *)
Theorem getFilteredExpenses_all tz now expenses :
  getFilteredExpenses tz now expenses AllTime [] [] = expenses
  /\ forall categories paymentModes,
       getFilteredExpenses tz now expenses AllTime categories paymentModes
       = filter (fun e =>
                   match paymentModes with
                   | [] => true
                   | _ => includesPaymentMode paymentModes (paymentMode e)
                   end)
           (filter (fun e =>
                      match categories with
                      | [] => true
                      | _ => includesCategory categories (category e)
                      end)
                   expenses).
Proof.
  split; [reflexivity|].
  intros categories paymentModes. unfold getFilteredExpenses. cbn zeta.
  assert (T : forall l : list Expense, filter (fun _ => true) l = l).
  { induction l as [|x l IH]; [reflexivity|]. cbn. rewrite IH. reflexivity. }
  destruct categories, paymentModes; cbn [List.length Nat.ltb Nat.leb];
    rewrite ?T; reflexivity.
Qed.





(** ** The store *)



(** ** The monthly aggregation *)







(** ** Purity *)

(** C8: on a heap whose cell [a] is the collection, a call of
    [getFilteredExpensesH] and a second call with the same arguments
    return two arrays with the same contents, the value of
    [getFilteredExpenses]; likewise two calls of
    [getMonthlyExpensesByCategoryH] return two arrays with the same
    entries, the value of [getMonthlyExpensesByCategory]; and after the
    calls every cell of the initial heap, the collection among them, is
    what it was: the calls only allocate new cells and write to cells they
    allocated. *)
Theorem queries_do_not_mutate tz now fuel h a items dateFilter categories paymentModes :
  nth_error h a = Some (ExpenseArray items) ->
  (exists r1 h1 r2 h2,
      getFilteredExpensesH tz now a dateFilter categories paymentModes h
      = Some (r1, h1)
      /\ getFilteredExpensesH tz now a dateFilter categories paymentModes h1
         = Some (r2, h2)
      /\ nth_error h1 r1
         = Some (ExpenseArray
                   (getFilteredExpenses tz now items dateFilter categories paymentModes))
      /\ nth_error h2 r2 = nth_error h1 r1
      /\ r1 <> a /\ r2 <> a
      /\ firstn (List.length h) h1 = h
      /\ firstn (List.length h) h2 = h
      /\ nth_error h2 a = Some (ExpenseArray items))
  /\ (forall months,
        getMonthlyExpensesByCategory tz fuel items = Some months ->
        exists r1 h1 r2 h2,
          getMonthlyExpensesByCategoryH tz fuel a h = Some (r1, h1)
          /\ getMonthlyExpensesByCategoryH tz fuel a h1 = Some (r2, h2)
          /\ monthsAt h1 r1 = Some (map Some months)
          /\ monthsAt h2 r2 = monthsAt h1 r1
          /\ r1 <> a /\ r2 <> a
          /\ firstn (List.length h) h1 = h
          /\ firstn (List.length h) h2 = h
          /\ nth_error h2 a = Some (ExpenseArray items)).
Proof.
  intros E.
  assert (Ha : (a < List.length h)%nat) by (eapply nth_error_Some_lt; exact E).
  assert (P : forall f : Heap, firstn (List.length h) (h ++ f) = h).
  { intros f. rewrite firstn_app, Nat.sub_diag, firstn_all. cbn [firstn].
    apply app_nil_r. }
  split.
  - destruct (getFilteredExpensesH_run tz now h a items dateFilter categories
                paymentModes E) as [r1 [f1 [R1 [L1 C1]]]].
    assert (E1 : nth_error (h ++ f1) a = Some (ExpenseArray items))
      by (rewrite nth_error_app1 by exact Ha; exact E).
    destruct (getFilteredExpensesH_run tz now (h ++ f1) a items dateFilter categories
                paymentModes E1) as [r2 [f2 [R2 [L2 C2]]]].
    exists r1, (h ++ f1), r2, ((h ++ f1) ++ f2).
    rewrite length_app in L2.
    split; [exact R1|]. split; [exact R2|]. split; [exact C1|].
    split; [rewrite C2, C1; reflexivity|].
    split; [lia|]. split; [lia|]. split; [apply P|].
    split; [rewrite <- app_assoc; apply P|].
    rewrite nth_error_app1 by (rewrite length_app; lia). exact E1.
  - intros months Hm.
    destruct (getMonthlyExpensesByCategoryH_run tz fuel h a items months E Hm)
      as [r1 [f1 [R1 [L1 C1]]]].
    assert (E1 : nth_error (h ++ f1) a = Some (ExpenseArray items))
      by (rewrite nth_error_app1 by exact Ha; exact E).
    destruct (getMonthlyExpensesByCategoryH_run tz fuel (h ++ f1) a items months E1 Hm)
      as [r2 [f2 [R2 [L2 C2]]]].
    exists r1, (h ++ f1), r2, ((h ++ f1) ++ f2).
    rewrite length_app in L2.
    split; [exact R1|]. split; [exact R2|]. split; [exact C1|].
    split; [rewrite C2, C1; reflexivity|].
    split; [lia|]. split; [lia|]. split; [apply P|].
    split; [rewrite <- app_assoc; apply P|].
    rewrite nth_error_app1 by (rewrite length_app; lia). exact E1.
Qed.

Lemma queries_do_not_mutate_witness :
  let items :=
    [ mkExpense "e1" 100 Groceries "" (Some 1705276800000) UPI;
      mkExpense "e2" 50 Travel "" (Some 1710028800000) Cash ] in
  let h := [ExpenseArray items] in
  (exists r1 h1 r2 h2,
      getFilteredExpensesH 0 1705276800000 0 ThisMonth [] [Cash; UPI] h
      = Some (r1, h1)
      /\ getFilteredExpensesH 0 1705276800000 0 ThisMonth [] [Cash; UPI] h1
         = Some (r2, h2)
      /\ nth_error h2 r2 = nth_error h1 r1
      /\ nth_error h2 0 = Some (ExpenseArray items))
  /\ (exists r1 h1 r2 h2,
        getMonthlyExpensesByCategoryH 0 3 0 h = Some (r1, h1)
        /\ getMonthlyExpensesByCategoryH 0 3 0 h1 = Some (r2, h2)
        /\ monthsAt h2 r2 = monthsAt h1 r1
        /\ nth_error h2 0 = Some (ExpenseArray items)).
Proof.
  cbn zeta.
  pose proof (queries_do_not_mutate 0 1705276800000 3
                [ExpenseArray
                   [ mkExpense "e1" 100 Groceries "" (Some 1705276800000) UPI;
                     mkExpense "e2" 50 Travel "" (Some 1710028800000) Cash ]]
                0 _ ThisMonth [] [Cash; UPI] eq_refl) as [F G].
  split.
  - destruct F as [r1 [h1 [r2 [h2 [R1 [R2 [_ [C [_ [_ [_ [_ N]]]]]]]]]]]].
    exists r1, h1, r2, h2. repeat (split; [assumption|]). exact N.
  - destruct (G [ mkMonthlyExpenseData "Jan 2024" 0 100 0 0 0;
                  mkMonthlyExpenseData "Feb 2024" 0 0 0 0 0;
                  mkMonthlyExpenseData "Mar 2024" 0 0 0 50 0 ])
      as [r1 [h1 [r2 [h2 [R1 [R2 [_ [C [_ [_ [_ [_ N]]]]]]]]]]]];
      [vm_compute; reflexivity|].
    exists r1, h1, r2, h2. repeat (split; [assumption|]). exact N.
Defined.

(** ** Persistence *)




(** C5 (amended): at startup the load effect never throws.  When the
    slot holds no item, or holds the empty text, the store starts with
    the empty collection and nothing is logged.  When the slot holds a
    non-empty text whose deserialization throws, whatever the error, the
    store starts with the empty collection and the error is logged. *)
Theorem loadEffect_falls_back tz :
  loadEffect tz None initialProvider = Normal initialProvider
  /\ loadEffect tz (Some EmptyText) initialProvider = Normal initialProvider
  /\ (forall text error,
        truthy text = true ->
        parseExpenses tz text = Throw error ->
        loadEffect tz (Some text) initialProvider
        = Normal {| expenses := []; console := [FailedToParse error] |})
  /\ (forall localStorage p, exists p', loadEffect tz localStorage p = Normal p').
Proof.
  split; [reflexivity|]. split; [reflexivity|]. split.
  - intros text error T E. unfold loadEffect. rewrite T, E. reflexivity.
  - apply loadEffect_normal.
Qed.

Lemma loadEffect_falls_back_witness :
  loadEffect 0 (Some MalformedText) initialProvider
  = Normal {| expenses := []; console := [FailedToParse SyntaxError] |}
  /\ loadEffect 0 (Some (JSONText (JObject [("expenses"%string, JArray [])])))
                initialProvider
     = Normal {| expenses := []; console := [FailedToParse TypeError] |}
  /\ loadEffect 0 (Some (JSONText (JArray [JNull]))) initialProvider
     = Normal {| expenses := []; console := [FailedToParse TypeError] |}.
Proof.
  destruct (loadEffect_falls_back 0) as [_ [_ [F _]]].
  split; [|split]; apply F; reflexivity.
Defined.

(** The claim C5 as first stated fails on the empty text: [JSON.parse]
    rejects it, yet the load effect, which skips a falsy item, logs
    nothing. *)
Lemma loadEffect_falls_back_counterexample :
  JSON_parse EmptyText = Throw SyntaxError
  /\ parseExpenses 0 EmptyText = Throw SyntaxError
  /\ loadEffect 0 (Some EmptyText) initialProvider
     = Normal {| expenses := []; console := [] |}.
Proof. repeat split. Qed.



(* ================================================================= *)
(** * Further properties *)

(** ** Filtering *)

(** X1: [getFilteredExpenses] applies its three filters as a
    conjunction and keeps the order of the collection: it keeps exactly
    the records that pass the date filter, whose category is selected
    (or no category is selected), and whose payment mode is selected (or
    no payment mode is selected). *)
Theorem getFilteredExpenses_conjunction tz now expenses dateFilter categories
    paymentModes :
  getFilteredExpenses tz now expenses dateFilter categories paymentModes
  = filter (fun e => keptByDate tz now dateFilter e
                     && keptByCategory categories e
                     && keptByPaymentMode paymentModes e) expenses
  /\ forall e,
       In e (getFilteredExpenses tz now expenses dateFilter categories paymentModes)
       <-> In e expenses
           /\ keptByDate tz now dateFilter e = true
           /\ (categories = [] \/ In (category e) categories)
           /\ (paymentModes = [] \/ In (paymentMode e) paymentModes).
Proof.
  split; [apply getFilteredExpenses_filter|].
  intros e. rewrite getFilteredExpenses_filter, filter_In, !andb_true_iff.
  assert (C : keptByCategory categories e = true
              <-> categories = [] \/ In (category e) categories).
  { unfold keptByCategory. destruct categories as [|c cs].
    - split; [left; reflexivity|reflexivity].
    - rewrite includesCategory_In. split; [right; assumption|].
      intros [H|H]; [discriminate|exact H]. }
  assert (P : keptByPaymentMode paymentModes e = true
              <-> paymentModes = [] \/ In (paymentMode e) paymentModes).
  { unfold keptByPaymentMode. destruct paymentModes as [|p ps].
    - split; [left; reflexivity|reflexivity].
    - rewrite includesPaymentMode_In. split; [right; assumption|].
      intros [H|H]; [discriminate|exact H]. }
  rewrite C, P. tauto.
Qed.

(** X2: the date ranges are nested: with the same category and payment
    mode selections, every record kept under This-month is kept under
    Last-30-days, every record kept under Last-30-days is kept under
    Last-90-days, and every record kept under Last-90-days is kept under
    All-time. *)
Theorem getFilteredExpenses_ranges_nested tz now expenses categories paymentModes e :
  (In e (getFilteredExpenses tz now expenses ThisMonth categories paymentModes) ->
   In e (getFilteredExpenses tz now expenses Last30Days categories paymentModes))
  /\ (In e (getFilteredExpenses tz now expenses Last30Days categories paymentModes) ->
      In e (getFilteredExpenses tz now expenses Last90Days categories paymentModes))
  /\ (In e (getFilteredExpenses tz now expenses Last90Days categories paymentModes) ->
      In e (getFilteredExpenses tz now expenses AllTime categories paymentModes)).
Proof.
  rewrite !getFilteredExpenses_filter, !filter_In, !andb_true_iff.
  destruct (keptByDate_nested tz now e) as [N1 N2].
  repeat split; try tauto.
Qed.

(** X3: a record with an Invalid Date is never kept under This-month,
    Last-30-days or Last-90-days; under All-time it is kept like any
    other record, by its category and payment mode alone. *)
Theorem getFilteredExpenses_invalid_date tz now expenses categories paymentModes e :
  date e = None ->
  (forall dateFilter, dateFilter <> AllTime ->
     ~ In e (getFilteredExpenses tz now expenses dateFilter categories paymentModes))
  /\ (In e (getFilteredExpenses tz now expenses AllTime categories paymentModes)
      <-> In e expenses
          /\ keptByCategory categories e = true
          /\ keptByPaymentMode paymentModes e = true).
Proof.
  intros E. split.
  - intros dateFilter NA H. rewrite getFilteredExpenses_filter, filter_In in H.
    rewrite (keptByDate_invalid tz now dateFilter e E NA) in H.
    destruct H as [_ H]. discriminate.
  - rewrite getFilteredExpenses_filter, filter_In, !andb_true_iff.
    cbn [keptByDate]. tauto.
Qed.

Lemma getFilteredExpenses_invalid_date_witness :
  let e := mkExpense "a" 10 Rental "rent" None UPI in
  ~ In e (getFilteredExpenses 0 1707998400000 [e] Last90Days [] [])
  /\ In e (getFilteredExpenses 0 1707998400000 [e] AllTime [] []).
Proof.
  cbn zeta.
  destruct (getFilteredExpenses_invalid_date 0 1707998400000
              [mkExpense "a" 10 Rental "rent" None UPI] [] []
              (mkExpense "a" 10 Rental "rent" None UPI) eq_refl) as [N A].
  split.
  - apply N. discriminate.
  - apply A. split; [left; reflexivity|split; reflexivity].
Defined.

(** X4: the filters compose: filtering by date, then the result by
    category, then that result by payment mode, gives what one call with
    the three filters gives; and filtering a result again with the same
    filters changes nothing. *)
Theorem getFilteredExpenses_composes tz now expenses dateFilter categories
    paymentModes :
  getFilteredExpenses tz now
    (getFilteredExpenses tz now
       (getFilteredExpenses tz now expenses dateFilter [] [])
       AllTime categories [])
    AllTime [] paymentModes
  = getFilteredExpenses tz now expenses dateFilter categories paymentModes
  /\ getFilteredExpenses tz now
       (getFilteredExpenses tz now expenses dateFilter categories paymentModes)
       dateFilter categories paymentModes
     = getFilteredExpenses tz now expenses dateFilter categories paymentModes.
Proof.
  split.
  - rewrite !getFilteredExpenses_filter, !filter_and. apply filter_ext.
    intros e. cbn [keptByDate keptByCategory keptByPaymentMode].
    destruct (keptByDate tz now dateFilter e), (keptByCategory categories e),
      (keptByPaymentMode paymentModes e); reflexivity.
  - rewrite !getFilteredExpenses_filter. apply filter_idempotent.
Qed.




(** ** The monthly aggregation *)








(** ** The list view *)


(** X12: the list view is sorted and the sort is stable: when it sorts
    by amount, and when it sorts by date a collection whose dates are all
    valid, the records shown are in ascending order of the sort key (the
    amount or the time value of the date, negated for the descending
    direction), and the records of one key are in the order in which the
    collection holds them. *)
Theorem filteredExpenses_sorted tz toLowerCase trim now collection dateFilter
    categories paymentModes searchTerm sortField sortDirection :
  (sortField = SortByDate -> allDatesValid collection) ->
  let shown :=
    filteredExpenses tz toLowerCase trim now collection dateFilter categories
                     paymentModes searchTerm sortField sortDirection in
  ascending (fun a b => sortKey sortField sortDirection a
                        - sortKey sortField sortDirection b) shown
  /\ forall k,
       filter (fun e => sortKey sortField sortDirection e =? k) shown
       = filter (fun e => sortKey sortField sortDirection e =? k)
                (shownRecords tz toLowerCase trim now collection dateFilter
                              categories paymentModes searchTerm).
Proof.
  intros V. cbn zeta. rewrite filteredExpenses_sorted_shown.
  set (P := fun e : Expense => sortField = SortByDate -> date e <> None).
  assert (K : forall a b, P a -> P b ->
              SortCompare (compareExpenses sortField sortDirection) a b
              = sortKey sortField sortDirection a
                - sortKey sortField sortDirection b).
  { intros a b Pa Pb. apply compareExpenses_key. intros E.
    split; [apply Pa, E|apply Pb, E]. }
  assert (F : Forall P (shownRecords tz toLowerCase trim now collection dateFilter
                                     categories paymentModes searchTerm)).
  { apply Forall_forall. intros e He E. unfold shownRecords in He.
    apply filter_In in He. apply (V E), He. }
  split.
  - apply (Array_sort_ascending _ _ P K), F.
  - intros k. apply (Array_sort_stable _ _ P K), F.
Qed.

Lemma filteredExpenses_sorted_witness :
  let old := mkExpense "a" 30 Rental "rent" (Some 1705276800000) UPI in
  let new1 := mkExpense "b" 20 Travel "bus" (Some 1710028800000) Cash in
  let new2 := mkExpense "c" 10 Travel "taxi" (Some 1710028800000) Cash in
  filteredExpenses 0 (fun s => s) (fun s => s) 1710028800000 [old; new1; new2]
                   AllTime [] [] EmptyString SortByDate Desc
  = [new1; new2; old]
  /\ ascending (fun a b => sortKey SortByDate Desc a - sortKey SortByDate Desc b)
               [new1; new2; old].
Proof.
  cbn zeta. split; [vm_compute; reflexivity|].
  apply (filteredExpenses_sorted 0 (fun s => s) (fun s => s) 1710028800000
           [ mkExpense "a" 30 Rental "rent" (Some 1705276800000) UPI;
             mkExpense "b" 20 Travel "bus" (Some 1710028800000) Cash;
             mkExpense "c" 10 Travel "taxi" (Some 1710028800000) Cash ]
           AllTime [] [] EmptyString SortByDate Desc).
  intros _ e [<-|[<-|[<-|[]]]]; discriminate.
Defined.


(** X14: the sort of the list view works in place, but on an array of
    its own: on a heap whose cell [a] is the collection,
    [filteredExpensesH] returns a new array that holds the value of
    [filteredExpenses], and leaves the collection, like every cell of the
    initial heap, as it was, in the same order. *)
Theorem filteredExpensesH_keeps_collection tz toLowerCase trim now h a items
    dateFilter categories paymentModes searchTerm sortField sortDirection :
  nth_error h a = Some (ExpenseArray items) ->
  exists r h',
    filteredExpensesH tz toLowerCase trim now a dateFilter categories paymentModes
                      searchTerm sortField sortDirection h
    = Some (r, h')
    /\ r <> a
    /\ nth_error h' r
       = Some (ExpenseArray
                 (filteredExpenses tz toLowerCase trim now items dateFilter
                    categories paymentModes searchTerm sortField sortDirection))
    /\ nth_error h' a = Some (ExpenseArray items)
    /\ firstn (List.length h) h' = h.
Proof.
  intros E.
  assert (Ha : (a < List.length h)%nat) by (eapply nth_error_Some_lt; exact E).
  unfold filteredExpensesH, filteredExpenses. cbn zeta.
  destruct (getFilteredExpensesH_run tz now h a items dateFilter categories
              paymentModes E) as [r1 [f1 [R1 [L1 C1]]]].
  rewrite (bind_run _ _ _ _ _ R1).
  set (kept := getFilteredExpenses tz now items dateFilter categories paymentModes)
    in *.
  assert (F1 : filtering h (h ++ f1) r1 kept).
  { split; [exists f1; reflexivity|]. split; assumption. }
  destruct (filtering_optional
              (negb (String.eqb (trim searchTerm) EmptyString))
              (searchMatches toLowerCase (toLowerCase searchTerm))
              _ _ _ _ F1) as [r2 [h2 [R2 F2]]].
  rewrite (bind_run _ _ _ _ _ R2).
  destruct F2 as [[f2 ->] [L2 E2]].
  rewrite (bind_run _ _ _ _ _ (readExpenses_run _ _ _ E2)).
  destruct (store_fresh h f2 r2
              (ExpenseArray
                 (Array_sort (compareExpenses sortField sortDirection)
                    (if negb (String.eqb (trim searchTerm) EmptyString)
                     then filter (searchMatches toLowerCase (toLowerCase searchTerm))
                                 kept
                     else kept))))
    as [f3 [S3 [_ [N3 O3]]]].
  { split; [exact L2|]. eapply nth_error_Some_lt. exact E2. }
  rewrite (bind_run _ _ _ _ _ S3).
  exists r2, (h ++ f3). split; [reflexivity|]. split; [lia|]. split; [exact N3|].
  split.
  - rewrite nth_error_app1 by exact Ha. exact E.
  - rewrite firstn_app, Nat.sub_diag, firstn_all. cbn [firstn]. apply app_nil_r.
Qed.

Lemma filteredExpensesH_keeps_collection_witness :
  let items :=
    [ mkExpense "a" 30 Rental "rent" (Some 1705276800000) UPI;
      mkExpense "b" 20 Travel "bus" (Some 1710028800000) Cash ] in
  exists r h',
    filteredExpensesH 0 (fun s => s) (fun s => s) 1710028800000 0 AllTime [] []
                      EmptyString SortByDate Desc [ExpenseArray items]
    = Some (r, h')
    /\ nth_error h' 0 = Some (ExpenseArray items).
Proof.
  cbn zeta.
  destruct (filteredExpensesH_keeps_collection 0 (fun s => s) (fun s => s)
              1710028800000
              [ExpenseArray
                 [ mkExpense "a" 30 Rental "rent" (Some 1705276800000) UPI;
                   mkExpense "b" 20 Travel "bus" (Some 1710028800000) Cash ]]
              0 _ AllTime [] [] EmptyString SortByDate Desc eq_refl)
    as [r [h' [R [_ [_ [N _]]]]]].
  exists r, h'. split; [exact R|exact N].
Defined.

(** X15: [toggleCategory] and [togglePaymentMode] flip the membership of
    the toggled value and of no other, and keep a selection free of
    duplicates. *)
Theorem toggle_flips_one category mode (prevC : list Category)
    (prevM : list PaymentMode) :
  (In category (toggleCategory category prevC) <-> ~ In category prevC)
  /\ (forall c, c <> category ->
        (In c (toggleCategory category prevC) <-> In c prevC))
  /\ (NoDup prevC -> NoDup (toggleCategory category prevC))
  /\ (In mode (togglePaymentMode mode prevM) <-> ~ In mode prevM)
  /\ (forall m, m <> mode ->
        (In m (togglePaymentMode mode prevM) <-> In m prevM))
  /\ (NoDup prevM -> NoDup (togglePaymentMode mode prevM)).
Proof.
  split; [|split; [|split; [|split; [|split]]]].
  - rewrite toggleCategory_In. tauto.
  - intros c NE. rewrite toggleCategory_In. tauto.
  - apply toggleCategory_NoDup.
  - rewrite togglePaymentMode_In. tauto.
  - intros m NE. rewrite togglePaymentMode_In. tauto.
  - apply togglePaymentMode_NoDup.
Qed.

(** X16: toggling a category twice, or a payment mode twice, gives back
    a selection with the same members, and [getFilteredExpenses] returns
    with it what it returned before. *)
Theorem toggle_twice tz now expenses dateFilter category mode
    (categories : list Category) (paymentModes : list PaymentMode) :
  (forall c, In c (toggleCategory category (toggleCategory category categories))
             <-> In c categories)
  /\ (forall m, In m (togglePaymentMode mode (togglePaymentMode mode paymentModes))
                <-> In m paymentModes)
  /\ getFilteredExpenses tz now expenses dateFilter
       (toggleCategory category (toggleCategory category categories))
       (togglePaymentMode mode (togglePaymentMode mode paymentModes))
     = getFilteredExpenses tz now expenses dateFilter categories paymentModes.
Proof.
  assert (C : forall c,
            In c (toggleCategory category (toggleCategory category categories))
            <-> In c categories).
  { intros c. rewrite !toggleCategory_In.
    assert (D : c = category \/ c <> category)
      by (destruct c, category; auto; right; discriminate).
    assert (Dc : In category categories \/ ~ In category categories).
    { destruct (includesCategory categories category) eqn:E.
      - left. apply includesCategory_In, E.
      - right. intros H. apply includesCategory_In in H. congruence. }
    destruct D as [->|NE]; intuition congruence. }
  assert (M : forall m,
            In m (togglePaymentMode mode (togglePaymentMode mode paymentModes))
            <-> In m paymentModes).
  { intros m. rewrite !togglePaymentMode_In.
    assert (D : m = mode \/ m <> mode)
      by (destruct m, mode; auto; right; discriminate).
    assert (Dm : In mode paymentModes \/ ~ In mode paymentModes).
    { destruct (includesPaymentMode paymentModes mode) eqn:E.
      - left. apply includesPaymentMode_In, E.
      - right. intros H. apply includesPaymentMode_In in H. congruence. }
    destruct D as [->|NE]; intuition congruence. }
  split; [exact C|]. split; [exact M|].
  rewrite !getFilteredExpenses_filter. apply filter_ext. intros e.
  rewrite (keptByCategory_members _ _ e C), (keptByPaymentMode_members _ _ e M).
  reflexivity.
Qed.

(** ** The analytics view *)



(** X18: when the collection is empty or holds a record with an Invalid
    Date, the analytics view has no month to add up: every total by
    category is zero and [totalExpenses] is zero, whatever the amounts of
    the records. *)
Theorem categoryTotals_without_months tz expenses fuel :
  expenses = [] \/ (exists e, In e expenses /\ date e = None) ->
  exists monthlyExpenses,
    getMonthlyExpensesByCategory tz fuel expenses = Some monthlyExpenses
    /\ categoryTotals monthlyExpenses
       = [ (Rental, 0); (Groceries, 0); (Entertainment, 0); (Travel, 0);
           (Others, 0) ]
    /\ totalExpenses (categoryTotals monthlyExpenses) = 0.
Proof.
  intros H. exists []. split; [|split; reflexivity].
  destruct H as [->|[e [He Hd]]]; [reflexivity|].
  apply (getMonthlyExpensesByCategory_invalid tz fuel expenses e He Hd).
Qed.

Lemma categoryTotals_without_months_witness :
  let expenses :=
    [ mkExpense "e1" 100 Groceries "milk" (Some 1705276800000) UPI;
      mkExpense "e2" 50 Travel "bus" None Cash ] in
  sumZ (map amount expenses) = 150
  /\ exists monthlyExpenses,
       getMonthlyExpensesByCategory 0 12 expenses = Some monthlyExpenses
       /\ totalExpenses (categoryTotals monthlyExpenses) = 0.
Proof.
  cbn zeta. split; [reflexivity|].
  destruct (categoryTotals_without_months 0
              [ mkExpense "e1" 100 Groceries "milk" (Some 1705276800000) UPI;
                mkExpense "e2" 50 Travel "bus" None Cash ] 12)
    as [months [E [_ T]]].
  - right. eexists. split; [right; left; reflexivity|reflexivity].
  - exists months. split; [exact E|exact T].
Defined.

(** ** Persistence *)






(** ** The views together *)

(** X22: a longer search term never shows more: when the lower-cased
    term contains the lower-cased shorter term and is not blank, every
    record that the list view shows for it is shown for the shorter
    term. *)
Theorem search_narrows tz toLowerCase trim now collection dateFilter categories
    paymentModes shorter longer sortField sortDirection e :
  trim longer <> EmptyString ->
  String_includes (toLowerCase longer) (toLowerCase shorter) = true ->
  In e (filteredExpenses tz toLowerCase trim now collection dateFilter categories
                         paymentModes longer sortField sortDirection) ->
  In e (filteredExpenses tz toLowerCase trim now collection dateFilter categories
                         paymentModes shorter sortField sortDirection).
Proof.
  intros NB Inc H.
  rewrite filteredExpenses_sorted_shown in *.
  apply (Permutation_in e (Array_sort_Permutation _ _)) in H.
  apply (Permutation_in e (Permutation_sym (Array_sort_Permutation _ _))).
  unfold shownRecords in *. rewrite filter_In in *.
  destruct H as [Hin H]. split; [exact Hin|].
  rewrite !andb_true_iff in *. destruct H as [H S]. split; [exact H|].
  unfold keptBySearch in *.
  destruct (String.eqb_spec (trim longer) EmptyString) as [E|_]; [congruence|].
  destruct (String.eqb (trim shorter) EmptyString); [reflexivity|].
  unfold searchMatches in *. rewrite !orb_true_iff in *.
  assert (T : forall s, String_includes s (toLowerCase longer) = true ->
                        String_includes s (toLowerCase shorter) = true).
  { intros s Hs. apply (String_includes_trans s _ _ Hs Inc). }
  destruct S as [[[S|S]|S]|S]; auto.
Qed.

Lemma search_narrows_witness :
  In (mkExpense "b" 20 Travel "bus" (Some 1710028800000) Cash)
     (filteredExpenses 0 (fun s => s) (fun s => s) 1710028800000
        [ mkExpense "a" 30 Rental "rent" (Some 1705276800000) UPI;
          mkExpense "b" 20 Travel "bus" (Some 1710028800000) Cash ]
        AllTime [] [] "bu" SortByDate Desc).
Proof.
  apply (search_narrows 0 (fun s => s) (fun s => s) 1710028800000 _ AllTime [] []
           "bu" "bus" SortByDate Desc).
  - discriminate.
  - reflexivity.
  - vm_compute. left. reflexivity.
Defined.

(** X23: [addExpense] and [getFilteredExpenses] compose: after an
    expense is added, the filter returns what it returned before,
    followed by the new record when that record passes the three tests;
    and a new record dated at the instant of the query passes every date
    filter. *)
Theorem getFilteredExpenses_after_addExpense tz now collection uuid x dateFilter
    categories paymentModes :
  let newExpense :=
    {| id := uuid; amount := in_amount x; category := in_category x;
       notes := in_notes x; date := in_date x;
       paymentMode := in_paymentMode x |} in
  getFilteredExpenses tz now (addExpense uuid x collection) dateFilter categories
                      paymentModes
  = getFilteredExpenses tz now collection dateFilter categories paymentModes
    ++ (if keptByDate tz now dateFilter newExpense
           && keptByCategory categories newExpense
           && keptByPaymentMode paymentModes newExpense
        then [newExpense] else [])
  /\ (in_date x = Some now -> keptByDate tz now dateFilter newExpense = true).
Proof.
  cbn zeta. split.
  - rewrite !getFilteredExpenses_filter. unfold addExpense. cbn zeta.
    rewrite filter_app. reflexivity.
  - intros Ed. destruct dateFilter; cbn [keptByDate]; [| | |reflexivity].
    + unfold datedWithin. cbn [date]. rewrite Ed.
      pose proof (proj1 (monthOf_day tz now _) eq_refl) as B.
      unfold firstDayOfCurrentMonth, lastDayOfCurrentMonth.
      apply andb_true_iff. split; apply Z.leb_le; lia.
    + apply datedFrom_day. exists now. split; [exact Ed|lia].
    + apply datedFrom_day. exists now. split; [exact Ed|lia].
Qed.


